(** * Matrix2D: a wrapper class over 2-D NumPy arrays

    Shallow embedding of [matrix_challenge_Abhishek_1RF23IS003.py].

    The class [Matrix2D] keeps one attribute, [mat], a reference to a NumPy
    array object.  Python objects are references, so the embedding threads
    an explicit store through every method: array objects (shape, base
    buffer) and the data buffers they point to are kept apart, because
    [ndarray.reshape] answers a view, a second array object over the same
    buffer.

    Scope of the NumPy model (module [np]):
    - dtype int64 only: elements are [Z] and every arithmetic result is
      wrapped to 64 bits two's complement, as NumPy does silently;
    - arrays are C-contiguous and cover their whole buffer;
    - whatever falls outside (Python ints beyond int64, strings or [None]
      inside a list, [None] or an instance as a raw operand, a dangling
      reference, [@] on an operand of rank 1 or of rank above 2) gives the
      outcome [Unmodelled], never an invented answer;
    - the dtype is not tracked: an array without entries made from an empty
      list is float64 in NumPy and is kept here as an array without
      entries, so what NumPy then computes in floating point from it is
      outside the model;
    - a ufunc whose result has rank 0 answers a NumPy scalar, which is no
      array;
    - an inhomogeneous nested list is a [ValueError] (NumPy 1.24 and later). *)

From Stdlib Require Import ZArith List Lia Bool.
From stdpp Require Import base list strings.

Set Default Proof Using "Type".

(* ================================================================== *)
(** ** Python values, exceptions, the store *)
(* ================================================================== *)

(** References into the store are indices. *)
Abbreviation loc := nat (only parsing).

(** An instance of the class: [__slots__ = ['mat']]. *)
Record Matrix2D := { mat : loc }.

#[warnings="-register-all"]
Inductive pyval :=
  | PyNone
  | PyInt (z : Z)
  | PyStr (s : string)
  | PyTuple (items : list pyval)
  | PyList (items : list pyval)
  | PyArray (l : loc)
  | PyMatrix (m : Matrix2D).

(** The exceptions that the class and the modelled part of NumPy raise. *)
Inductive exn := TypeError | ValueError | IndexError.

(** The specification calls the [ValueError] of the rank check a ShapeError. *)
Definition ShapeError : exn := ValueError.

Inductive outcome (A : Type) :=
  | Ok (a : A)
  | Raise (e : exn)
  | Unmodelled.
Arguments Ok {A} a.
Arguments Raise {A} e.
Arguments Unmodelled {A}.

(** An array object: its shape and the buffer it views. *)
Record ndarray := { nd_shape : list nat; nd_base : loc }.

Record heap := {
  arrays : list ndarray;
  buffers : list (list Z);
  stdout : list string
}.

Definition empty_heap : heap := {| arrays := []; buffers := []; stdout := [] |}.

(** Computations: state passing over the store, with exceptions. *)
Definition Py (A : Type) : Type := heap -> outcome A * heap.

Definition ret {A} (a : A) : Py A := fun h => (Ok a, h).
Definition raise {A} (e : exn) : Py A := fun h => (Raise e, h).
Definition unmodelled {A} : Py A := fun h => (Unmodelled, h).

Definition bind {A B} (c : Py A) (k : A -> Py B) : Py B :=
  fun h =>
    match c h with
    | (Ok a, h') => k a h'
    | (Raise e, h') => (Raise e, h')
    | (Unmodelled, h') => (Unmodelled, h')
    end.

Definition lift {A} (o : outcome A) : Py A := fun h => (o, h).

Declare Scope py_scope.
Delimit Scope py_scope with py.
Notation "x <- c ;; k" := (bind c (fun x => k))
  (at level 100, c at next level, right associativity) : py_scope.
Notation "c ;;; k" := (bind c (fun _ => k))
  (at level 100, right associativity) : py_scope.
Open Scope py_scope.

(** [isinstance(data, list)], [isinstance(data, np.ndarray)],
    [isinstance(other, Matrix2D)]. *)
Definition isinstance_list (v : pyval) : bool :=
  match v with PyList _ => true | _ => false end.
Definition isinstance_ndarray (v : pyval) : bool :=
  match v with PyArray _ => true | _ => false end.
Definition isinstance_Matrix2D (v : pyval) : bool :=
  match v with PyMatrix _ => true | _ => false end.

(** [print(s)]. *)
Definition print (s : string) : Py unit :=
  fun h => (Ok tt, {| arrays := arrays h; buffers := buffers h;
                      stdout := stdout h ++ [s] |}).

(* ================================================================== *)
(** ** The NumPy primitives the class calls *)
(* ================================================================== *)

Module np.

(** *** int64 elements *)

Definition int64_wrap (z : Z) : Z := ((z + 2 ^ 63) mod 2 ^ 64 - 2 ^ 63)%Z.
Definition in_int64 (z : Z) : bool := ((- 2 ^ 63 <=? z) && (z <? 2 ^ 63))%Z.

Definition add64 (x y : Z) : Z := int64_wrap (x + y).
Definition sub64 (x y : Z) : Z := int64_wrap (x - y).
Definition mul64 (x y : Z) : Z := int64_wrap (x * y).
Definition pow64 (x y : Z) : Z := int64_wrap (x ^ y).

(** *** Array values: what an array object denotes *)

Record value := { v_shape : list nat; v_data : list Z }.

Definition size (s : list nat) : nat := fold_right Nat.mul 1 s.

(** *** [np.array] on nested sequences *)

Fixpoint sequence {A} (os : list (outcome A)) : outcome (list A) :=
  match os with
  | [] => Ok []
  | Ok a :: os' =>
      match sequence os' with
      | Ok l => Ok (a :: l)
      | Raise e => Raise e
      | Unmodelled => Unmodelled
      end
  | Raise e :: _ => Raise e
  | Unmodelled :: _ => Unmodelled
  end.

Definition shape_eqb (s1 s2 : list nat) : bool :=
  bool_decide (s1 = s2).

(** Stack the converted items of a sequence along a new leading axis. *)
Definition stack (vs : list value) : outcome value :=
  match vs with
  | [] => Ok {| v_shape := [0]; v_data := [] |}
  | v :: _ =>
      if forallb (fun w => shape_eqb (v_shape w) (v_shape v)) vs
      then Ok {| v_shape := length vs :: v_shape v;
                 v_data := concat (map v_data vs) |}
      else Raise ValueError
  end.

Fixpoint discover (v : pyval) : outcome value :=
  match v with
  | PyInt z =>
      if in_int64 z then Ok {| v_shape := []; v_data := [z] |} else Unmodelled
  | PyList items | PyTuple items =>
      match sequence (map discover items) with
      | Ok vs => stack vs
      | Raise e => Raise e
      | Unmodelled => Unmodelled
      end
  | _ => Unmodelled
  end.

(** *** Broadcasting *)

Definition pad (n : nat) (s : list nat) : list nat :=
  repeat 1 (n - length s) ++ s.

Definition bdim (a b : nat) : option nat :=
  if a =? b then Some a
  else if a =? 1 then Some b
  else if b =? 1 then Some a
  else None.

Fixpoint bshape (s1 s2 : list nat) : option (list nat) :=
  match s1, s2 with
  | [], [] => Some []
  | a :: s1', b :: s2' =>
      match bdim a b, bshape s1' s2' with
      | Some d, Some r => Some (d :: r)
      | _, _ => None
      end
  | _, _ => None
  end.

Definition broadcast_shapes (s1 s2 : list nat) : option (list nat) :=
  let n := Nat.max (length s1) (length s2) in
  bshape (pad n s1) (pad n s2).

(** [k] consecutive chunks of [n] elements. *)
Fixpoint chunks (n k : nat) (data : list Z) : list (list Z) :=
  match k with
  | 0 => []
  | S k' => take n data :: chunks n k' (drop n data)
  end.

(** Stretch the data of an array of shape [src] to shape [tgt] (same rank;
    every axis of [src] equals that of [tgt] or is 1). *)
Fixpoint bcast (src tgt : list nat) (data : list Z) : list Z :=
  match src, tgt with
  | ds :: ss, dt :: ts =>
      if ds =? dt
      then concat (map (bcast ss ts) (chunks (size ss) ds data))
      else concat (repeat (bcast ss ts data) dt)
  | _, _ => data
  end.

Definition broadcast_to (v : value) (tgt : list nat) : list Z :=
  bcast (pad (length tgt) (v_shape v)) tgt (v_data v).

(** An element-wise binary ufunc on int64 arrays. *)
Definition ufunc2 (f : Z -> Z -> Z) (a b : value) : outcome value :=
  match broadcast_shapes (v_shape a) (v_shape b) with
  | None => Raise ValueError
  | Some s =>
      Ok {| v_shape := s;
            v_data := zip_with f (broadcast_to a s) (broadcast_to b s) |}
  end.

(** [np.power] on integers refuses a negative exponent. *)
Definition power_value (a b : value) : outcome value :=
  match broadcast_shapes (v_shape a) (v_shape b) with
  | None => Raise ValueError
  | Some s =>
      if forallb (fun e => (0 <=? e)%Z) (broadcast_to b s)
      then Ok {| v_shape := s;
                 v_data := zip_with pow64 (broadcast_to a s) (broadcast_to b s) |}
      else Raise ValueError
  end.

(** *** Matrix product *)

Definition dot (r c : list Z) : Z :=
  fold_left (fun acc xy => add64 acc (mul64 (fst xy) (snd xy))) (zip r c) 0%Z.

Definition column (rows : list (list Z)) (j : nat) : list Z :=
  map (fun r => nth j r 0%Z) rows.

Definition matmul_value (a b : value) : outcome value :=
  match v_shape a, v_shape b with
  | [m; k], [k'; n] =>
      if k =? k' then
        let rows_a := chunks k m (v_data a) in
        let rows_b := chunks n k (v_data b) in
        Ok {| v_shape := [m; n];
              v_data := concat (map (fun r =>
                          map (fun j => dot r (column rows_b j)) (seq 0 n))
                          rows_a) |}
      else Raise ValueError
  | [], _ | _, [] => Raise ValueError
  | _, _ => Unmodelled
  end.

(** *** [reshape] with one inferred axis *)

Definition known_size (newshape : list Z) : nat :=
  fold_right (fun d acc => if (d =? -1)%Z then acc else Z.to_nat d * acc) 1 newshape.

Definition infer_shape (sz : nat) (newshape : list Z) : outcome (list nat) :=
  if existsb (fun d => (d <? -1)%Z) newshape then Raise ValueError else
  let k := known_size newshape in
  match length (filter (fun d => d = (-1)%Z) newshape) with
  | 0 => if k =? sz then Ok (map Z.to_nat newshape) else Raise ValueError
  | 1 =>
      if (k =? 0) || negb (sz mod k =? 0) then Raise ValueError
      else Ok (map (fun d => if (d =? -1)%Z then sz / k else Z.to_nat d) newshape)
  | _ => Raise ValueError
  end.

(** *** The store *)

Definition read (l : loc) : Py value :=
  fun h =>
    match arrays h !! l with
    | Some a =>
        match buffers h !! nd_base a with
        | Some d => (Ok {| v_shape := nd_shape a; v_data := d |}, h)
        | None => (Unmodelled, h)
        end
    | None => (Unmodelled, h)
    end.

(** A new array object over a new buffer. *)
Definition alloc (v : value) : Py pyval :=
  fun h =>
    (Ok (PyArray (length (arrays h))),
     {| arrays := arrays h ++ [{| nd_shape := v_shape v;
                                  nd_base := length (buffers h) |}];
        buffers := buffers h ++ [v_data v];
        stdout := stdout h |}).

(** A new array object over an existing buffer. *)
Definition alloc_view (s : list nat) (base : loc) : Py pyval :=
  fun h =>
    (Ok (PyArray (length (arrays h))),
     {| arrays := arrays h ++ [{| nd_shape := s; nd_base := base |}];
        buffers := buffers h;
        stdout := stdout h |}).

(** Coercion of an operand of an arithmetic operator to an array value.
    No ufunc loop takes an int64 array and a string; [None] and other
    objects would make an object array, which is outside the model. *)
Definition to_operand (v : pyval) : Py value :=
  match v with
  | PyArray l => read l
  | PyInt _ | PyList _ | PyTuple _ => lift (discover v)
  | PyStr _ => raise TypeError
  | PyNone | PyMatrix _ => unmodelled
  end.

(** [np.array(data)] *)
Definition array (data : pyval) : Py pyval :=
  v <- lift (discover data) ;; alloc v.

(** [data.ndim] *)
Definition ndim (data : pyval) : Py nat :=
  match data with
  | PyArray l =>
      fun h => match arrays h !! l with
               | Some a => (Ok (length (nd_shape a)), h)
               | None => (Unmodelled, h)
               end
  | _ => unmodelled
  end.

(** [data.shape] *)
Definition shape (data : pyval) : Py (list nat) :=
  match data with
  | PyArray l =>
      fun h => match arrays h !! l with
               | Some a => (Ok (nd_shape a), h)
               | None => (Unmodelled, h)
               end
  | _ => unmodelled
  end.

(** [data.reshape(1, -1)] and the like: a view, the buffer is shared. *)
Definition reshape (data : pyval) (newshape : list Z) : Py pyval :=
  match data with
  | PyArray l =>
      fun h => match arrays h !! l with
               | Some a =>
                   (s <- lift (infer_shape (size (nd_shape a)) newshape) ;;
                    alloc_view s (nd_base a)) h
               | None => (Unmodelled, h)
               end
  | _ => unmodelled
  end.

(** A binary operation on arrays.  A result of rank 0 comes back as a
    NumPy scalar, a number that is neither a list nor an array; any other
    result is a new array. *)
Definition binary (op : value -> value -> outcome value) (x y : pyval) : Py pyval :=
  a <- to_operand x ;;
  b <- to_operand y ;;
  r <- lift (op a b) ;;
  match v_shape r with
  | [] => ret (PyInt (hd 0%Z (v_data r)))
  | _ => alloc r
  end.

(** [x + y], [x - y], [x * y], [x @ y], [np.power(x, y)] on arrays. *)
Definition add := binary (ufunc2 add64).
Definition subtract := binary (ufunc2 sub64).
Definition multiply := binary (ufunc2 mul64).
Definition matmul := binary matmul_value.
Definition power := binary power_value.

(** In-place writes a holder of the array object can make:
    [arr.flat[i] = v] and [arr.shape = s]. *)
Definition setitem_flat (l : loc) (i : nat) (v : Z) : Py unit :=
  fun h =>
    match arrays h !! l with
    | Some a =>
        match buffers h !! nd_base a with
        | Some d =>
            if negb (in_int64 v) then (Unmodelled, h)
            else if length d <=? i then (Raise IndexError, h)
            else (Ok tt, {| arrays := arrays h;
                            buffers := <[nd_base a := <[i := v]> d]> (buffers h);
                            stdout := stdout h |})
        | None => (Unmodelled, h)
        end
    | None => (Unmodelled, h)
    end.

Definition set_shape (l : loc) (s : list nat) : Py unit :=
  fun h =>
    match arrays h !! l with
    | Some a =>
        if size s =? size (nd_shape a)
        then (Ok tt,
              {| arrays := <[l := {| nd_shape := s; nd_base := nd_base a |}]>
                             (arrays h);
                 buffers := buffers h;
                 stdout := stdout h |})
        else (Raise ValueError, h)
    | None => (Unmodelled, h)
    end.

End np.

(* ================================================================== *)
(** ** class Matrix2D *)
(* ================================================================== *)

(** [Matrix2D(data)] *)
Definition __init__ (data : pyval) : Py Matrix2D :=
  data <- (if isinstance_list data then np.array data else ret data) ;;
  if negb (isinstance_ndarray data) then raise TypeError else
  n <- np.ndim data ;;
  data <- (if n =? 1 then np.reshape data [1; -1]%Z
           else if negb (n =? 2) then raise ValueError
           else ret data) ;;
  match data with
  | PyArray l => ret {| mat := l |}
  | _ => unmodelled
  end.

(** [other.mat] *)
Definition getattr_mat (other : pyval) : Py pyval :=
  match other with
  | PyMatrix o => ret (PyArray (mat o))
  | _ => unmodelled
  end.

Definition __add__ (self : Matrix2D) (other : pyval) : Py Matrix2D :=
  if isinstance_Matrix2D other then
    o <- getattr_mat other ;;
    r <- np.add (PyArray (mat self)) o ;; __init__ r
  else
    r <- np.add (PyArray (mat self)) other ;; __init__ r.

Definition __sub__ (self : Matrix2D) (other : pyval) : Py Matrix2D :=
  if isinstance_Matrix2D other then
    o <- getattr_mat other ;;
    r <- np.subtract (PyArray (mat self)) o ;; __init__ r
  else
    r <- np.subtract (PyArray (mat self)) other ;; __init__ r.

Definition __mul__ (self : Matrix2D) (other : pyval) : Py Matrix2D :=
  if isinstance_Matrix2D other then
    o <- getattr_mat other ;;
    r <- np.multiply (PyArray (mat self)) o ;; __init__ r
  else
    r <- np.multiply (PyArray (mat self)) other ;; __init__ r.

Definition __matmul__ (self : Matrix2D) (other : pyval) : Py Matrix2D :=
  if negb (isinstance_Matrix2D other) then raise TypeError else
  o <- getattr_mat other ;;
  r <- np.matmul (PyArray (mat self)) o ;; __init__ r.

Definition __pow__ (self : Matrix2D) (power : pyval) : Py Matrix2D :=
  r <- np.power (PyArray (mat self)) power ;; __init__ r.

Definition shape (self : Matrix2D) : Py (list nat) :=
  np.shape (PyArray (mat self)).

Section Rendering.
(** NumPy's default rendering of an array, [str(a)] and [repr(a)]; its
    format is no part of the class. *)
Variable array_str : np.value -> string.
Variable array_repr : np.value -> string.

Definition __str__ (self : Matrix2D) : Py string :=
  v <- np.read (mat self) ;; ret (array_str v).

Definition __repr__ (self : Matrix2D) : Py string :=
  v <- np.read (mat self) ;;
  ret ("Matrix2D(" +:+ array_repr v +:+ ")").

Definition demo_complex_expression : Py Matrix2D :=
  A <- __init__ (PyList [PyList [PyInt 1; PyInt 2]; PyList [PyInt 3; PyInt 4]]) ;;
  B <- __init__ (PyList [PyInt 5; PyInt 6]) ;;
  s <- __add__ A (PyMatrix B) ;;
  d <- __sub__ A (PyMatrix B) ;;
  p <- __pow__ d (PyInt 2) ;;
  result <- __matmul__ s (PyMatrix p) ;;
  print "Result of (A + B) @ (A - B) ** 2:" ;;;
  text <- __str__ result ;;
  print text ;;;
  ret result.
End Rendering.

(** The five operators, as one family. *)
Inductive operator := Add | Subtract | Multiply | MatrixMultiply | Power.

Definition apply_op (op : operator) : Matrix2D -> pyval -> Py Matrix2D :=
  match op with
  | Add => __add__
  | Subtract => __sub__
  | Multiply => __mul__
  | MatrixMultiply => __matmul__
  | Power => __pow__
  end.

(* ================================================================== *)
(** ** Reading the store *)
(* ================================================================== *)

(** What a matrix holds in a given store. *)
Definition content (h : heap) (m : Matrix2D) : outcome np.value :=
  fst (np.read (mat m) h).

(** What a call leaves behind: the value the returned instance holds, or
    the exception. *)
Definition result_content (r : outcome Matrix2D * heap) : outcome np.value :=
  match r with
  | (Ok m, h) => content h m
  | (Raise e, _) => Raise e
  | (Unmodelled, _) => Unmodelled
  end.

(** The store after [np.alloc v]. *)
Definition push (h : heap) (v : np.value) : heap :=
  {| arrays := arrays h ++ [{| nd_shape := np.v_shape v;
                               nd_base := length (buffers h) |}];
     buffers := buffers h ++ [np.v_data v];
     stdout := stdout h |}.

(** The store after a view of shape [s] over buffer [b] is created. *)
Definition push_view (h : heap) (s : list nat) (b : loc) : heap :=
  {| arrays := arrays h ++ [{| nd_shape := s; nd_base := b |}];
     buffers := buffers h;
     stdout := stdout h |}.

(** The store only grows: what was there stays, bit for bit. *)
Definition grows (h h' : heap) : Prop :=
  arrays h `prefix_of` arrays h' /\
  buffers h `prefix_of` buffers h' /\
  stdout h' = stdout h.

(** The array object of [m] and its buffer did not exist in [h]. *)
Definition fresh_in (h h' : heap) (m : Matrix2D) : Prop :=
  exists a, arrays h' !! mat m = Some a /\
            length (arrays h) <= mat m /\
            length (buffers h) <= nd_base a.

(** The array object of [m] has rank 2. *)
Definition rank2 (h : heap) (m : Matrix2D) : Prop :=
  exists a, arrays h !! mat m = Some a /\ length (nd_shape a) = 2.

(** Two matrices alias when they hold the same array object, or array
    objects over the same buffer. *)
Definition aliases (h : heap) (m1 m2 : Matrix2D) : Prop :=
  mat m1 = mat m2 \/
  exists a1 a2, arrays h !! mat m1 = Some a1 /\ arrays h !! mat m2 = Some a2 /\
                nd_base a1 = nd_base a2.

(* ================================================================== *)
(** ** Inputs *)
(* ================================================================== *)

(** A Python list of ints and a list of such lists; the same with tuples. *)
Definition int_list (xs : list Z) : pyval := PyList (map PyInt xs).
Definition int_rows (xss : list (list Z)) : pyval := PyList (map int_list xss).
Definition int_tuple (xs : list Z) : pyval := PyTuple (map PyInt xs).
Definition int_tuples (xss : list (list Z)) : pyval := PyTuple (map int_tuple xss).

(** Rows of equal length [c], all elements int64. *)
Definition rows_ok (c : nat) (xss : list (list Z)) : bool :=
  forallb (fun r => (length r =? c) && forallb np.in_int64 r) xss.

(** Array values of rank 0, 1 and 2. *)
Definition scalar (z : Z) : np.value := {| np.v_shape := []; np.v_data := [z] |}.
Definition vector (xs : list Z) : np.value :=
  {| np.v_shape := [length xs]; np.v_data := xs |}.
Definition matrix (rows cols : nat) (d : list Z) : np.value :=
  {| np.v_shape := [rows; cols]; np.v_data := d |}.

(** [input_shape h data s]: [data] passes the type checks of the constructor
    and the array it then holds has shape [s] (for a list, the shape
    [np.array] gives it). *)
Inductive input_shape (h : heap) : pyval -> list nat -> Prop :=
  | input_list items v :
      np.discover (PyList items) = Ok v ->
      input_shape h (PyList items) (np.v_shape v)
  | input_array l a :
      arrays h !! l = Some a ->
      input_shape h (PyArray l) (nd_shape a).

(* ================================================================== *)
(** ** The operators read at the level of array values *)
(* ================================================================== *)

(** The operand that reaches NumPy: [other.mat] for a [Matrix2D]. *)
Definition unwrap (other : pyval) : pyval :=
  match other with
  | PyMatrix o => PyArray (mat o)
  | _ => other
  end.

(** The value [np.binary op x y] computes, before it is stored. *)
Definition binary_value (op : np.value -> np.value -> outcome np.value)
    (x y : pyval) (h : heap) : outcome np.value :=
  match fst (np.to_operand x h) with
  | Ok a =>
      match fst (np.to_operand y h) with
      | Ok b => op a b
      | Raise e => Raise e
      | Unmodelled => Unmodelled
      end
  | Raise e => Raise e
  | Unmodelled => Unmodelled
  end.

(** The array an operator hands to the constructor. *)
Definition op_value (op : operator) (self : Matrix2D) (other : pyval) (h : heap)
    : outcome np.value :=
  match op with
  | Add => binary_value (np.ufunc2 np.add64) (PyArray (mat self)) (unwrap other) h
  | Subtract => binary_value (np.ufunc2 np.sub64) (PyArray (mat self)) (unwrap other) h
  | Multiply => binary_value (np.ufunc2 np.mul64) (PyArray (mat self)) (unwrap other) h
  | MatrixMultiply =>
      if isinstance_Matrix2D other
      then binary_value np.matmul_value (PyArray (mat self)) (unwrap other) h
      else Raise TypeError
  | Power => binary_value np.power_value (PyArray (mat self)) other h
  end.

(** [Matrix2D(r)] for the array [r] NumPy has just allocated. *)
Definition wrap_result (h : heap) (r : np.value) : outcome Matrix2D * heap :=
  __init__ (PyArray (length (arrays h))) (push h r).

(** What an operator makes of the value NumPy computed: a scalar (rank 0)
    is no array and the constructor refuses it. *)
Definition return_result (h : heap) (r : np.value) : outcome Matrix2D * heap :=
  match np.v_shape r with
  | [] => (Raise TypeError, h)
  | _ => wrap_result h r
  end.

(* ================================================================== *)
(** ** The matrix product, by its entries *)
(* ================================================================== *)

(** Entry [(i, j)] of a row-major array with [cols] columns. *)
Definition entry (cols : nat) (d : list Z) (i j : nat) : Z :=
  nth (i * cols + j) d 0%Z.

Definition sum_upto (k : nat) (f : nat -> Z) : Z :=
  fold_right Z.add 0%Z (map f (seq 0 k)).

(** Entry [(i, j)] of the product of an [m x k] by a [k x n] array: the sum
    of the [k] products along row [i] and column [j], kept to 64 bits. *)
Definition product_entry (k n : nat) (da db : list Z) (i j : nat) : Z :=
  np.int64_wrap (sum_upto k (fun l => entry k da i l * entry n db l j)%Z).

(** The sum [np.dot] accumulates, without the wrapping. *)
Definition sum_prod (r c : list Z) : Z :=
  fold_right (fun xy s => (fst xy * snd xy + s)%Z) 0%Z (zip r c).

(* ================================================================== *)
(** ** Programs over the class *)
(* ================================================================== *)

(** The instances a program holds: an instance joins them when a call
    returns it. *)
Definition keep (o : outcome Matrix2D) (ms : list Matrix2D) : list Matrix2D :=
  match o with
  | Ok m => m :: ms
  | _ => ms
  end.

(** Which in-place shape writes [arr.shape = s] a program makes: any, or
    only those that keep rank 2 or touch no array an instance wraps. *)
Definition any_shape_write (ms : list Matrix2D) (l : loc) (s : list nat) : Prop :=
  True.
Definition harmless_shape_write (ms : list Matrix2D) (l : loc) (s : list nat) : Prop :=
  length s = 2 \/ forall m, In m ms -> mat m <> l.

(** The states a program reaches from the store [h0] by calling the
    constructor on any value and the operators on instances it holds, by
    writing entries of any array it can name ([arr.flat[i] = v]), and by
    the shape writes ([arr.shape = s]) that [may_reshape] lets through. *)
Inductive reachable (may_reshape : list Matrix2D -> loc -> list nat -> Prop)
    (h0 : heap) : heap -> list Matrix2D -> Prop :=
  | reach_start : reachable may_reshape h0 h0 []
  | reach_construct h ms data :
      reachable may_reshape h0 h ms ->
      reachable may_reshape h0 (snd (__init__ data h))
                (keep (fst (__init__ data h)) ms)
  | reach_operate h ms op self other :
      reachable may_reshape h0 h ms -> In self ms ->
      reachable may_reshape h0 (snd (apply_op op self other h))
                (keep (fst (apply_op op self other h)) ms)
  | reach_write h ms l i v :
      reachable may_reshape h0 h ms ->
      reachable may_reshape h0 (snd (np.setitem_flat l i v h)) ms
  | reach_reshape h ms l s :
      reachable may_reshape h0 h ms -> may_reshape ms l s ->
      reachable may_reshape h0 (snd (np.set_shape l s h)) ms.

(* ================================================================== *)
(** ** Inputs and results read without their addresses *)
(* ================================================================== *)

(** What an array reference shows: the shape of the array object and, when
    its buffer exists, the entries. *)
Definition cell : Type := list nat * option (list Z).

Definition view_at (h : heap) (l : loc) : option cell :=
  match arrays h !! l with
  | Some a => Some (nd_shape a, buffers h !! nd_base a)
  | None => None
  end.

(** A Python value with every reference replaced by what it shows. *)
#[warnings="-register-all"]
Inductive dval :=
  | DNone
  | DInt (z : Z)
  | DStr (s : string)
  | DTuple (items : list dval)
  | DList (items : list dval)
  | DArray (c : option cell)
  | DMatrix (c : option cell).

Fixpoint denote (h : heap) (v : pyval) : dval :=
  match v with
  | PyNone => DNone
  | PyInt z => DInt z
  | PyStr s => DStr s
  | PyTuple items => DTuple (map (denote h) items)
  | PyList items => DList (map (denote h) items)
  | PyArray l => DArray (view_at h l)
  | PyMatrix m => DMatrix (view_at h (mat m))
  end.

(** The observable result of a call: what the returned instance shows, or
    the exception. *)
Definition observe (r : outcome Matrix2D * heap) : outcome (option cell) :=
  match r with
  | (Ok m, h) => Ok (view_at h (mat m))
  | (Raise e, _) => Raise e
  | (Unmodelled, _) => Unmodelled
  end.

(** The array value a view stands for. *)
Definition value_of (c : option cell) : outcome np.value :=
  match c with
  | Some (s, Some d) => Ok {| np.v_shape := s; np.v_data := d |}
  | _ => Unmodelled
  end.

(** What the constructor makes of an array, by its rank. *)
Definition init_view (c : option cell) : outcome (option cell) :=
  match c with
  | None => Unmodelled
  | Some (s, b) =>
      match length s with
      | 1 => Ok (Some ([1; np.size s], b))
      | 2 => Ok (Some (s, b))
      | _ => Raise ValueError
      end
  end.

(* ================================================================== *)
(** ** Example stores *)
(* ================================================================== *)

(** One array of rank 0, [np.array(5)]. *)
Definition heap_rank0 : heap :=
  {| arrays := [{| nd_shape := []; nd_base := 0 |}];
     buffers := [[5%Z]]; stdout := [] |}.

(** One 2 x 2 array a caller built, [np.array([[1, 2], [3, 4]])]. *)
Definition heap_2x2 : heap :=
  {| arrays := [{| nd_shape := [2; 2]; nd_base := 0 |}];
     buffers := [[1; 2; 3; 4]%Z]; stdout := [] |}.

(** The same array at another address, behind another array. *)
Definition heap_shifted : heap :=
  {| arrays := [{| nd_shape := [3]; nd_base := 0 |};
                {| nd_shape := [2; 2]; nd_base := 1 |}];
     buffers := [[7; 7; 7]%Z; [1; 2; 3; 4]%Z]; stdout := ["earlier output"] |}.

(** Two 2 x 2 arrays. *)
Definition heap_pair : heap :=
  {| arrays := [{| nd_shape := [2; 2]; nd_base := 0 |};
                {| nd_shape := [2; 2]; nd_base := 1 |}];
     buffers := [[1; 2; 3; 4]%Z; [10; 20; 30; 40]%Z]; stdout := [] |}.

(** The store once a program has built the two matrices of the demo,
    [A = Matrix2D([[1, 2], [3, 4]])] and [B = Matrix2D([5, 6])]. *)
Definition demo_A : Matrix2D := {| mat := 0 |}.
Definition demo_B : Matrix2D := {| mat := 2 |}.
Definition demo_heap : heap :=
  snd (__init__ (int_list [5; 6]%Z)
         (snd (__init__ (int_rows [[1; 2]; [3; 4]]%Z) empty_heap))).

(* ================================================================== *)
(** ** The element-wise operators *)
(* ================================================================== *)

(** The int64 function an element-wise operator applies; [@] and [**] are
    no such operators. *)
Definition scalar_fun (op : operator) : option (Z -> Z -> Z) :=
  match op with
  | Add => Some np.add64
  | Subtract => Some np.sub64
  | Multiply => Some np.mul64
  | MatrixMultiply | Power => None
  end.

(** The index an operand of extent [a] is read at, along an axis of extent
    [n] of the result: its own index, or 0 when it is stretched. *)
Definition stretch (a n i : nat) : nat := if a =? n then i else 0.

(** Extents [a] and [b] of one axis broadcast to [m]: each is [m] or 1, and
    one of them is [m]. *)
Definition stretches (a b m : nat) : Prop :=
  (a = m \/ a = 1) /\ (b = m \/ b = 1) /\ (a = m \/ b = m).

(** Example store: a 2 x 2 and a 2 x 3 array. *)
Definition heap_2x2_2x3 : heap :=
  {| arrays := [{| nd_shape := [2; 2]; nd_base := 0 |};
                {| nd_shape := [2; 3]; nd_base := 1 |}];
     buffers := [[1; 2; 3; 4]%Z; [1; 0; 2; 0; 1; 3]%Z]; stdout := [] |}.

(** Example store: a 2 x 2 array and an array of rank 3. *)
Definition heap_rank3 : heap :=
  {| arrays := [{| nd_shape := [2; 2]; nd_base := 0 |};
                {| nd_shape := [2; 1; 2]; nd_base := 1 |}];
     buffers := [[1; 2; 3; 4]%Z; [10; 20; 30; 40]%Z]; stdout := [] |}.

(** Example store: one array of rank 1, [np.array([7, 8, 9])]. *)
Definition heap_vector : heap :=
  {| arrays := [{| nd_shape := [3]; nd_base := 0 |}];
     buffers := [[7; 8; 9]%Z]; stdout := [] |}.

(** Example store: a 2 x 2, a 2 x 3 and a 3 x 1 array. *)
Definition heap_chain : heap :=
  {| arrays := [{| nd_shape := [2; 2]; nd_base := 0 |};
                {| nd_shape := [2; 3]; nd_base := 1 |};
                {| nd_shape := [3; 1]; nd_base := 2 |}];
     buffers := [[1; 2; 3; 4]%Z; [1; 0; 2; 0; 1; 3]%Z; [5; 6; 7]%Z];
     stdout := [] |}.

(** Example store: a 2 x 2 array and two 2 x 3 arrays. *)
Definition heap_distr : heap :=
  {| arrays := [{| nd_shape := [2; 2]; nd_base := 0 |};
                {| nd_shape := [2; 3]; nd_base := 1 |};
                {| nd_shape := [2; 3]; nd_base := 2 |}];
     buffers := [[1; 2; 3; 4]%Z; [1; 0; 2; 0; 1; 3]%Z; [5; 6; 7; 8; 9; 10]%Z];
     stdout := [] |}.

(** What the instance an operator returns shows, from the value NumPy
    computed. *)
Definition result_view (r : np.value) : outcome (option cell) :=
  match np.v_shape r with
  | [] => Raise TypeError
  | _ => init_view (Some (np.v_shape r, Some (np.v_data r)))
  end.

(** Entry [(i, j)] of the product over the integers, without wrap-around. *)
Definition exact_product_entry (k n : nat) (da db : list Z) (i j : nat) : Z :=
  sum_upto k (fun l => entry k da i l * entry n db l j)%Z.

(** Example store: three 1 x 1 arrays holding [2 ^ 63 - 1], [1] and
    [2 ^ 32]. *)
Definition heap_large : heap :=
  {| arrays := [{| nd_shape := [1; 1]; nd_base := 0 |};
                {| nd_shape := [1; 1]; nd_base := 1 |};
                {| nd_shape := [1; 1]; nd_base := 2 |}];
     buffers := [[9223372036854775807%Z]; [1%Z]; [4294967296%Z]];
     stdout := [] |}.

(** A Python list of tuples of ints, [[(1, 2), (3, 4)]]. *)
Definition int_tuple_rows (xss : list (list Z)) : pyval :=
  PyList (map int_tuple xss).

(* ================================================================== *)
(** ** Monad and store lemmas *)
(* ================================================================== *)

Lemma heap_eta h :
  {| arrays := arrays h; buffers := buffers h; stdout := stdout h |} = h.
Proof. by destruct h. Qed.

Lemma size_singleton n : np.size [n] = n.
Proof. unfold np.size; simpl; lia. Qed.

Lemma infer_row n : np.infer_shape n [1; -1]%Z = Ok [1; n].
Proof.
  unfold np.infer_shape; simpl.
  change (Ok [1; n / 1] = Ok [1; n]). by rewrite Nat.div_1_r.
Qed.

Lemma init_rank2 h l a :
  arrays h !! l = Some a -> length (nd_shape a) = 2 ->
  __init__ (PyArray l) h = (Ok {| mat := l |}, h).
Proof.
  intros Hl Hr. unfold __init__, bind, ret; simpl. by rewrite Hl, Hr.
Qed.

Lemma init_rank1 h l a :
  arrays h !! l = Some a -> length (nd_shape a) = 1 ->
  __init__ (PyArray l) h =
    (Ok {| mat := length (arrays h) |},
     push_view h [1; np.size (nd_shape a)] (nd_base a)).
Proof.
  intros Hl Hr. unfold __init__, bind, ret; simpl. rewrite Hl, Hr; simpl.
  rewrite Hl. unfold bind, lift. by rewrite infer_row.
Qed.

Lemma init_rank_other h l a :
  arrays h !! l = Some a ->
  length (nd_shape a) <> 1 -> length (nd_shape a) <> 2 ->
  __init__ (PyArray l) h = (Raise ValueError, h).
Proof.
  intros Hl H1 H2. unfold __init__, bind, ret; simpl. rewrite Hl.
  destruct (Nat.eqb_spec (length (nd_shape a)) 1); [done|].
  by destruct (Nat.eqb_spec (length (nd_shape a)) 2).
Qed.

Lemma init_dangling h l :
  arrays h !! l = None -> __init__ (PyArray l) h = (Unmodelled, h).
Proof. intros Hl. unfold __init__, bind, ret; simpl. by rewrite Hl. Qed.

Lemma init_list h items :
  __init__ (PyList items) h =
    match np.discover (PyList items) with
    | Ok v => __init__ (PyArray (length (arrays h))) (push h v)
    | Raise e => (Raise e, h)
    | Unmodelled => (Unmodelled, h)
    end.
Proof.
  unfold __init__ at 1. unfold bind at 1. cbn [isinstance_list].
  unfold np.array, bind at 1, lift.
  destruct (np.discover (PyList items)) as [v| |]; try done.
Qed.

Lemma init_other h data :
  isinstance_list data = false -> isinstance_ndarray data = false ->
  __init__ data h = (Raise TypeError, h).
Proof.
  intros Hl Ha. unfold __init__, bind, ret. rewrite Hl; simpl. by rewrite Ha.
Qed.

(* ================================================================== *)
(** ** The NumPy model at work *)
(* ================================================================== *)

(** A column against a row; a matrix against a scalar and against a row. *)
Example broadcast_column_row :
  np.ufunc2 np.add64 (matrix 2 1 [1; 2]%Z) (matrix 1 3 [10; 20; 30]%Z) =
    Ok (matrix 2 3 [11; 21; 31; 12; 22; 32]%Z).
Proof. reflexivity. Qed.

Example broadcast_row :
  np.ufunc2 np.add64 (matrix 2 2 [1; 2; 3; 4]%Z) (vector [10; 20]%Z) =
    Ok (matrix 2 2 [11; 22; 13; 24]%Z).
Proof. reflexivity. Qed.

Example broadcast_mismatch :
  np.ufunc2 np.add64 (matrix 2 2 [1; 2; 3; 4]%Z) (vector [10; 20; 30]%Z) =
    Raise ValueError.
Proof. reflexivity. Qed.

(** int64 addition wraps. *)
Example add64_wraps : np.add64 9223372036854775807 1 = (-9223372036854775808)%Z.
Proof. reflexivity. Qed.

(** A ragged list has no shape; an empty list has shape [(0,)]. *)
Example discover_ragged :
  np.discover (PyList [PyList [PyInt 1; PyInt 2]; PyList [PyInt 3]]) = Raise ValueError.
Proof. reflexivity. Qed.

Example discover_empty :
  np.discover (PyList []) = Ok {| np.v_shape := [0]; np.v_data := [] |}.
Proof. reflexivity. Qed.

Example power_negative :
  np.power_value (matrix 1 2 [2; 3]%Z) (scalar (-1)) = Raise ValueError.
Proof. reflexivity. Qed.

Example matmul_2x3_3x2 :
  np.matmul_value (matrix 2 3 [1; 2; 3; 4; 5; 6]%Z) (matrix 3 2 [1; 0; 0; 1; 1; 1]%Z) =
    Ok (matrix 2 2 [4; 5; 10; 11]%Z).
Proof. reflexivity. Qed.

Example matmul_inner_mismatch :
  np.matmul_value (matrix 2 3 [1; 2; 3; 4; 5; 6]%Z) (matrix 2 2 [1; 0; 0; 1]%Z) =
    Raise ValueError.
Proof. reflexivity. Qed.

(** The operators on the matrices of the demo. *)
Example add_rank3_operand :
  fst (__add__ demo_A (PyList [PyList [PyList [PyInt 1]]]) demo_heap) = Raise ValueError.
Proof. reflexivity. Qed.

Example matmul_row_by_matrix :
  result_content (__matmul__ demo_B (PyMatrix demo_A) demo_heap) =
    Ok (matrix 1 2 [23; 34]%Z).
Proof. reflexivity. Qed.

Example matmul_matrix_by_row :
  fst (__matmul__ demo_A (PyMatrix demo_B) demo_heap) = Raise ValueError.
Proof. reflexivity. Qed.

Example empty_list_is_an_empty_row :
  exists m h, __init__ (PyList []) empty_heap = (Ok m, h) /\ shape m h = (Ok [1; 0], h).
Proof. by eexists _, _. Qed.

(* ================================================================== *)
(** ** [np.array] on lists of numbers *)
(* ================================================================== *)


Lemma sequence_scalars xs :
  forallb np.in_int64 xs = true ->
  np.sequence (map np.discover (map PyInt xs)) = Ok (map scalar xs).
Proof.
  induction xs as [|x xs IH]; simpl; [done|].
  intros [Hx Hxs]%andb_prop. rewrite Hx, (IH Hxs). done.
Qed.

Lemma concat_singletons (xs : list Z) :
  concat (map np.v_data (map scalar xs)) = xs.
Proof. induction xs; simpl; congruence. Qed.

Lemma stack_uniform vs s :
  vs <> [] -> (forall w, In w vs -> np.v_shape w = s) ->
  np.stack vs =
    Ok {| np.v_shape := length vs :: s; np.v_data := concat (map np.v_data vs) |}.
Proof.
  intros Hne Hall. destruct vs as [|v vs']; [done|].
  unfold np.stack.
  replace (forallb _ (v :: vs')) with true.
  - by rewrite (Hall v (or_introl eq_refl)).
  - symmetry. apply forallb_forall. intros w Hw.
    apply bool_decide_eq_true. rewrite (Hall w Hw).
    symmetry. apply Hall. by left.
Qed.

Lemma stack_scalars xs : np.stack (map scalar xs) = Ok (vector xs).
Proof.
  destruct xs as [|x xs]; [done|].
  rewrite (stack_uniform _ []).
  - by rewrite length_map, concat_singletons.
  - done.
  - by intros w [q [<- _]]%in_map_iff.
Qed.

Lemma discover_int_list xs :
  forallb np.in_int64 xs = true -> np.discover (int_list xs) = Ok (vector xs).
Proof.
  intros H. unfold int_list. cbn [np.discover].
  by rewrite (sequence_scalars _ H), stack_scalars.
Qed.

Lemma discover_int_tuple xs :
  forallb np.in_int64 xs = true -> np.discover (int_tuple xs) = Ok (vector xs).
Proof.
  intros H. unfold int_tuple. cbn [np.discover].
  by rewrite (sequence_scalars _ H), stack_scalars.
Qed.


Lemma sequence_vectors c xss :
  rows_ok c xss = true ->
  np.sequence (map np.discover (map int_list xss)) = Ok (map vector xss).
Proof.
  induction xss as [|r xss IH]; [done|].
  cbn [rows_ok forallb]. intros [[_ Hr]%andb_prop Hxss]%andb_prop.
  cbn [map np.sequence]. by rewrite (discover_int_list _ Hr), (IH Hxss).
Qed.

Lemma concat_vectors (xss : list (list Z)) :
  concat (map np.v_data (map vector xss)) = concat xss.
Proof. induction xss; simpl; congruence. Qed.

Lemma stack_vectors c xss :
  rows_ok c xss = true -> xss <> [] ->
  np.stack (map vector xss) =
    Ok {| np.v_shape := [length xss; c]; np.v_data := concat xss |}.
Proof.
  intros Hok Hne. rewrite (stack_uniform _ [c]).
  - by rewrite length_map, concat_vectors.
  - by destruct xss.
  - intros w [q [<- Hq]]%in_map_iff.
    unfold rows_ok in Hok. rewrite forallb_forall in Hok.
    apply Hok in Hq. apply andb_prop in Hq as [Hq _].
    apply Nat.eqb_eq in Hq. by simpl; rewrite Hq.
Qed.

Lemma discover_int_rows c xss :
  rows_ok c xss = true -> xss <> [] ->
  np.discover (int_rows xss) =
    Ok {| np.v_shape := [length xss; c]; np.v_data := concat xss |}.
Proof.
  intros Hok Hne. unfold int_rows. cbn [np.discover].
  by rewrite (sequence_vectors _ _ Hok), (stack_vectors _ _ Hok Hne).
Qed.

(* ================================================================== *)
(** ** The constructor, by the rank of its input *)
(* ================================================================== *)

Lemma lookup_push_new h v :
  arrays (push h v) !! length (arrays h) =
    Some {| nd_shape := np.v_shape v; nd_base := length (buffers h) |}.
Proof. unfold push; simpl. by apply list_lookup_middle. Qed.

Lemma lookup_push_view_new h s b :
  arrays (push_view h s b) !! length (arrays h) =
    Some {| nd_shape := s; nd_base := b |}.
Proof. unfold push_view; simpl. by apply list_lookup_middle. Qed.

Lemma shape_lookup h m a :
  arrays h !! mat m = Some a -> shape m h = (Ok (nd_shape a), h).
Proof. intros H. unfold shape, np.shape. by rewrite H. Qed.

Lemma init_array_rank1 h l a n :
  arrays h !! l = Some a -> nd_shape a = [n] ->
  exists m h', __init__ (PyArray l) h = (Ok m, h') /\
               shape m h' = (Ok [1; n], h').
Proof.
  intros Hl Hs. eexists _, _. split.
  - apply (init_rank1 h l a Hl). by rewrite Hs.
  - rewrite Hs, size_singleton.
    unfold shape, np.shape; cbn [mat]. by rewrite lookup_push_view_new.
Qed.

Lemma init_array_rank2 h l a r c :
  arrays h !! l = Some a -> nd_shape a = [r; c] ->
  exists m h', __init__ (PyArray l) h = (Ok m, h') /\
               shape m h' = (Ok [r; c], h').
Proof.
  intros Hl Hs. exists {| mat := l |}, h. split.
  - apply (init_rank2 h l a Hl). by rewrite Hs.
  - erewrite shape_lookup; [|exact Hl]. by rewrite Hs.
Qed.

Lemma init_input_rank1 h data n :
  input_shape h data [n] ->
  exists m h', __init__ data h = (Ok m, h') /\ shape m h' = (Ok [1; n], h').
Proof.
  intros H. remember [n] as s eqn:Hs. destruct H as [items v Hd | l a Hl].
  - rewrite init_list, Hd, Hs.
    eapply init_array_rank1; [apply lookup_push_new|]. by simpl.
  - rewrite Hs. by eapply init_array_rank1.
Qed.

Lemma init_input_rank2 h data r c :
  input_shape h data [r; c] ->
  exists m h', __init__ data h = (Ok m, h') /\ shape m h' = (Ok [r; c], h').
Proof.
  intros H. remember [r; c] as s eqn:Hs. destruct H as [items v Hd | l a Hl].
  - rewrite init_list, Hd, Hs.
    eapply init_array_rank2; [apply lookup_push_new|]. by simpl.
  - rewrite Hs. by eapply init_array_rank2.
Qed.

Lemma init_input_other h data s :
  input_shape h data s -> length s <> 1 -> length s <> 2 ->
  exists h', __init__ data h = (Raise ValueError, h').
Proof.
  intros H H1 H2. destruct H as [items v Hd | l a Hl].
  - rewrite init_list, Hd. eexists.
    eapply init_rank_other; [apply lookup_push_new| |]; by simpl.
  - eexists. by eapply init_rank_other.
Qed.

Lemma input_shape_int_list h xs :
  forallb np.in_int64 xs = true -> input_shape h (int_list xs) [length xs].
Proof.
  intros H. pose proof (input_list h _ _ (discover_int_list xs H)) as Hi.
  exact Hi.
Qed.

Lemma input_shape_int_rows h c xss :
  rows_ok c xss = true -> xss <> [] ->
  input_shape h (int_rows xss) [length xss; c].
Proof.
  intros H Hne. pose proof (input_list h _ _ (discover_int_rows c xss H Hne)) as Hi.
  exact Hi.
Qed.

Lemma sequence_vectors_tuples c xss :
  rows_ok c xss = true ->
  np.sequence (map np.discover (map int_tuple xss)) = Ok (map vector xss).
Proof.
  induction xss as [|r xss IH]; [done|].
  cbn [rows_ok forallb]. intros [[_ Hr]%andb_prop Hxss]%andb_prop.
  cbn [map np.sequence]. by rewrite (discover_int_tuple _ Hr), (IH Hxss).
Qed.

Lemma input_shape_int_tuple_rows h c xss :
  rows_ok c xss = true -> xss <> [] ->
  input_shape h (int_tuple_rows xss) [length xss; c].
Proof.
  intros Hok Hne.
  assert (Hd : np.discover (int_tuple_rows xss) =
               Ok {| np.v_shape := [length xss; c]; np.v_data := concat xss |}).
  { unfold int_tuple_rows. cbn [np.discover].
    by rewrite (sequence_vectors_tuples _ _ Hok), (stack_vectors _ _ Hok Hne). }
  exact (input_list h _ _ Hd).
Qed.

(** C1, as the code has it.  Every list that [np.array] converts to rank 1
    and every existing rank-1 array, of length [N], is stored as one row:
    [shape()] answers [(1, N)].  Every list that converts to rank 2 and
    every existing rank-2 array keeps its shape: [shape()] answers
    [(rows, cols)].  In particular a list of [N] numbers gives [(1, N)],
    and a non-empty list of [rows] rows of [cols] numbers, the rows being
    lists or tuples, gives [(rows, cols)]. *)
Theorem C1_shape_after_construction :
  (forall h data n,
      input_shape h data [n] ->
      exists m h', __init__ data h = (Ok m, h') /\
                   shape m h' = (Ok [1; n], h')) /\
  (forall h data rows cols,
      input_shape h data [rows; cols] ->
      exists m h', __init__ data h = (Ok m, h') /\
                   shape m h' = (Ok [rows; cols], h')) /\
  (forall h xs,
      forallb np.in_int64 xs = true ->
      exists m h', __init__ (int_list xs) h = (Ok m, h') /\
                   shape m h' = (Ok [1; length xs], h')) /\
  (forall h xss cols,
      xss <> [] -> rows_ok cols xss = true ->
      exists m h', __init__ (int_rows xss) h = (Ok m, h') /\
                   shape m h' = (Ok [length xss; cols], h')) /\
  (forall h xss cols,
      xss <> [] -> rows_ok cols xss = true ->
      exists m h', __init__ (int_tuple_rows xss) h = (Ok m, h') /\
                   shape m h' = (Ok [length xss; cols], h')) /\
  (forall h l a n,
      arrays h !! l = Some a -> nd_shape a = [n] ->
      exists m h', __init__ (PyArray l) h = (Ok m, h') /\
                   shape m h' = (Ok [1; n], h')) /\
  (forall h l a rows cols,
      arrays h !! l = Some a -> nd_shape a = [rows; cols] ->
      exists m h', __init__ (PyArray l) h = (Ok m, h') /\
                   shape m h' = (Ok [rows; cols], h')).
Proof.
  refine (conj _ (conj _ (conj _ (conj _ (conj _ (conj _ _)))))).
  - intros h data n. apply init_input_rank1.
  - intros h data rows cols. apply init_input_rank2.
  - intros h xs Hxs. by apply init_input_rank1, input_shape_int_list.
  - intros h xss cols Hne Hok. by apply init_input_rank2, input_shape_int_rows.
  - intros h xss cols Hne Hok.
    by apply init_input_rank2, input_shape_int_tuple_rows.
  - intros h l a n Hl Hs. by eapply init_array_rank1.
  - intros h l a rows cols Hl Hs. by eapply init_array_rank2.
Qed.

Lemma C1_witness :
  (exists m h', __init__ (int_list [7; 8; 9]%Z) empty_heap = (Ok m, h') /\
                shape m h' = (Ok [1; 3], h')) /\
  (exists m h', __init__ (int_rows [[1; 2; 3]; [4; 5; 6]]%Z) empty_heap = (Ok m, h') /\
                shape m h' = (Ok [2; 3], h')) /\
  (exists m h', __init__ (int_tuple_rows [[1; 2; 3]; [4; 5; 6]]%Z) empty_heap
                = (Ok m, h') /\
                shape m h' = (Ok [2; 3], h')) /\
  (exists m h', __init__ (PyArray 0) heap_2x2 = (Ok m, h') /\
                shape m h' = (Ok [2; 2], h')).
Proof.
  refine (conj _ (conj _ (conj _ _))).
  - exact (proj1 (proj2 (proj2 C1_shape_after_construction))
             empty_heap [7; 8; 9]%Z eq_refl).
  - refine (proj1 (proj2 (proj2 (proj2 C1_shape_after_construction))) empty_heap
              [[1; 2; 3]; [4; 5; 6]]%Z 3 _ eq_refl).
    discriminate.
  - refine (proj1 (proj2 (proj2 (proj2 (proj2 C1_shape_after_construction))))
              empty_heap [[1; 2; 3]; [4; 5; 6]]%Z 3 _ eq_refl).
    discriminate.
  - exact (proj1 (proj2 C1_shape_after_construction) heap_2x2 (PyArray 0) 2 2
             (input_array heap_2x2 0 {| nd_shape := [2; 2]; nd_base := 0 |} eq_refl)).
Defined.

(** C1 as stated fails for a sequence that is no list: the tuple
    [(7, 8, 9)] is a rank-1 sequence of three numbers, and the constructor
    refuses it with a [TypeError]; no instance, no shape. *)
Lemma C1_counterexample :
  np.discover (int_tuple [7; 8; 9]%Z) = Ok (vector [7; 8; 9]%Z) /\
  __init__ (int_tuple [7; 8; 9]%Z) empty_heap = (Raise TypeError, empty_heap) /\
  ~ (exists m h', __init__ (int_tuple [7; 8; 9]%Z) empty_heap = (Ok m, h')).
Proof.
  split; [reflexivity|]. split; [reflexivity|].
  intros (m & h' & H). discriminate H.
Qed.

(** C5, as the code has it.  An array, or a list (the one kind of sequence
    the constructor converts), whose rank is neither 1 nor 2 (rank 0, rank
    3 and above) makes the constructor raise the [ValueError] of its rank
    check, the ShapeError of the specification; no instance results. *)
Theorem C5_rank_check h data s :
  input_shape h data s -> length s <> 1 -> length s <> 2 ->
  exists h', __init__ data h = (Raise ShapeError, h').
Proof. apply init_input_other. Qed.

Lemma C5_witness :
  (exists h', __init__ (PyList [PyList [PyList [PyInt 1; PyInt 2]]]) empty_heap
              = (Raise ShapeError, h')) /\
  (exists h', __init__ (PyArray 0) heap_rank0 = (Raise ShapeError, h')).
Proof.
  split.
  - refine (C5_rank_check empty_heap _ [1; 1; 2]
              (input_list empty_heap [PyList [PyList [PyInt 1; PyInt 2]]]
                 {| np.v_shape := [1; 1; 2]; np.v_data := [1; 2]%Z |} eq_refl) _ _);
      simpl; lia.
  - refine (C5_rank_check heap_rank0 _ []
              (input_array heap_rank0 0 {| nd_shape := []; nd_base := 0 |} eq_refl) _ _);
      simpl; lia.
Defined.

(** C5 as stated fails for a sequence that is no list: a tuple of rank 3
    never reaches the rank check, the type check before it raises a
    [TypeError]. *)
Lemma C5_counterexample :
  np.discover (PyTuple [PyTuple [PyTuple [PyInt 1; PyInt 2]]]) =
    Ok {| np.v_shape := [1; 1; 2]; np.v_data := [1; 2]%Z |} /\
  __init__ (PyTuple [PyTuple [PyTuple [PyInt 1; PyInt 2]]]) empty_heap =
    (Raise TypeError, empty_heap) /\
  ~ (exists h', __init__ (PyTuple [PyTuple [PyTuple [PyInt 1; PyInt 2]]]) empty_heap =
                (Raise ShapeError, h')).
Proof.
  split; [reflexivity|]. split; [reflexivity|].
  intros [h' H]. discriminate H.
Qed.

(* ================================================================== *)
(** ** The type check of the constructor *)
(* ================================================================== *)

(** Induction on Python values, through the lists they nest. *)
Lemma pyval_nested_ind (P : pyval -> Prop) :
  P PyNone ->
  (forall z, P (PyInt z)) ->
  (forall s, P (PyStr s)) ->
  (forall items, Forall P items -> P (PyTuple items)) ->
  (forall items, Forall P items -> P (PyList items)) ->
  (forall l, P (PyArray l)) ->
  (forall m, P (PyMatrix m)) ->
  forall v, P v.
Proof.
  intros HN HI HS HT HL HA HM.
  exact (fix IH (v : pyval) : P v :=
    let all :=
      fix go (l : list pyval) : Forall P l :=
        match l with
        | [] => @List.Forall_nil _ P
        | x :: l' => @List.Forall_cons _ P x l' (IH x) (go l')
        end in
    match v with
    | PyNone => HN
    | PyInt z => HI z
    | PyStr s => HS s
    | PyTuple items => HT items (all items)
    | PyList items => HL items (all items)
    | PyArray l => HA l
    | PyMatrix m => HM m
    end).
Qed.

Lemma sequence_raise {A} (os : list (outcome A)) e :
  np.sequence os = Raise e -> In (Raise e) os.
Proof.
  induction os as [|o os IH]; simpl; [done|].
  destruct o as [a|e'|]; try done.
  - destruct (np.sequence os); try done. intros [= ->]. right. by apply IH.
  - intros [= ->]. by left.
Qed.

Lemma stack_raise vs e : np.stack vs = Raise e -> e = ValueError.
Proof.
  unfold np.stack. destruct vs; [done|].
  destruct (forallb _ _); [done|]. by intros [= <-].
Qed.

Lemma discover_seq_raise items e :
  Forall (fun v => forall e, np.discover v = Raise e -> e = ValueError) items ->
  match np.sequence (map np.discover items) with
  | Ok vs => np.stack vs
  | Raise e => Raise e
  | Unmodelled => Unmodelled
  end = Raise e -> e = ValueError.
Proof.
  intros Hall.
  destruct (np.sequence (map np.discover items)) as [vs|e'|] eqn:Hseq; try done.
  - apply stack_raise.
  - intros [= ->]. apply sequence_raise in Hseq.
    apply in_map_iff in Hseq as [v [Hv Hin]].
    rewrite Forall_forall in Hall. apply (Hall v); [|exact Hv].
    by apply list_elem_of_In.
Qed.

(** [np.array] on a nested sequence raises nothing but a [ValueError]. *)
Lemma discover_raise v : forall e, np.discover v = Raise e -> e = ValueError.
Proof.
  induction v as [ | z | s | items IH | items IH | l | m ] using pyval_nested_ind;
    intros e; simpl; try done.
  - by destruct (np.in_int64 z).
  - by apply discover_seq_raise.
  - by apply discover_seq_raise.
Qed.

Lemma init_array_cases h l :
  (exists m h', __init__ (PyArray l) h = (Ok m, h')) \/
  __init__ (PyArray l) h = (Raise ValueError, h) \/
  __init__ (PyArray l) h = (Unmodelled, h).
Proof.
  destruct (arrays h !! l) as [a|] eqn:Hl.
  - destruct (decide (length (nd_shape a) = 1)) as [H1|H1].
    { left. eexists _, _. by apply (init_rank1 h l a). }
    destruct (decide (length (nd_shape a) = 2)) as [H2|H2].
    { left. eexists _, _. by apply (init_rank2 h l a). }
    right; left. by apply (init_rank_other h l a).
  - right; right. by apply init_dangling.
Qed.

Lemma init_type_error h data :
  fst (__init__ data h) = Raise TypeError <->
  isinstance_list data = false /\ isinstance_ndarray data = false.
Proof.
  split.
  - destruct data as [ | z | s | items | items | l | m ]; try done.
    + rewrite init_list.
      destruct (np.discover (PyList items)) as [v|e|] eqn:Hd; simpl; try done.
      * destruct (init_array_cases (push h v) (length (arrays h)))
          as [(m & h' & ->) | [-> | ->]]; done.
      * intros [= ->]. by apply discover_raise in Hd.
    + destruct (init_array_cases h l) as [(m & h' & ->) | [-> | ->]]; done.
  - intros [Hl Ha]. by rewrite init_other.
Qed.

(** C6, as the code has it.  The constructor raises a [TypeError] exactly
    when its input is neither a [list] nor an [ndarray].  A list of int64
    numbers, a non-empty list of equally long lists of int64 numbers and an
    existing array of rank 1 or 2 are accepted; a tuple, and so a tuple of
    tuples of numbers, is refused with a [TypeError]. *)
Theorem C6_type_check :
  (forall h data,
      fst (__init__ data h) = Raise TypeError <->
      isinstance_list data = false /\ isinstance_ndarray data = false) /\
  (forall h xs,
      forallb np.in_int64 xs = true ->
      exists m h', __init__ (int_list xs) h = (Ok m, h')) /\
  (forall h xss cols,
      xss <> [] -> rows_ok cols xss = true ->
      exists m h', __init__ (int_rows xss) h = (Ok m, h')) /\
  (forall h l a,
      arrays h !! l = Some a ->
      length (nd_shape a) = 1 \/ length (nd_shape a) = 2 ->
      exists m h', __init__ (PyArray l) h = (Ok m, h')) /\
  (forall h xss, __init__ (int_tuples xss) h = (Raise TypeError, h)).
Proof.
  refine (conj init_type_error (conj _ (conj _ (conj _ _)))).
  - intros h xs Hxs.
    destruct (init_input_rank1 h _ _ (input_shape_int_list h xs Hxs))
      as (m & h' & Hm & _). eauto.
  - intros h xss cols Hne Hok.
    destruct (init_input_rank2 h _ _ _ (input_shape_int_rows h cols xss Hok Hne))
      as (m & h' & Hm & _). eauto.
  - intros h l a Hl [H1|H2]; eexists _, _.
    + by apply (init_rank1 h l a).
    + by apply (init_rank2 h l a).
  - intros h xss. by apply init_other.
Qed.

Lemma C6_witness :
  (fst (__init__ (PyInt 5) empty_heap) = Raise TypeError) /\
  (exists m h', __init__ (int_list [5; 6]%Z) empty_heap = (Ok m, h')) /\
  (exists m h', __init__ (int_rows [[1; 2]; [3; 4]]%Z) empty_heap = (Ok m, h')) /\
  (exists m h', __init__ (PyArray 0) heap_2x2 = (Ok m, h')).
Proof.
  refine (conj _ (conj _ (conj _ _))).
  - exact (proj2 (proj1 C6_type_check empty_heap (PyInt 5)) (conj eq_refl eq_refl)).
  - exact (proj1 (proj2 C6_type_check) empty_heap [5; 6]%Z eq_refl).
  - refine (proj1 (proj2 (proj2 C6_type_check)) empty_heap
              [[1; 2]; [3; 4]]%Z 2 _ eq_refl). discriminate.
  - exact (proj1 (proj2 (proj2 (proj2 C6_type_check))) heap_2x2 0
             {| nd_shape := [2; 2]; nd_base := 0 |} eq_refl (or_intror eq_refl)).
Defined.

(** C6 as stated fails: a tuple of tuples of numbers is a nested sequence
    of numbers, and the constructor refuses it with a [TypeError]. *)
Lemma C6_counterexample :
  int_tuples [[1; 2]; [3; 4]]%Z =
    PyTuple [PyTuple [PyInt 1; PyInt 2]; PyTuple [PyInt 3; PyInt 4]] /\
  np.discover (int_tuples [[1; 2]; [3; 4]]%Z) =
    Ok {| np.v_shape := [2; 2]; np.v_data := [1; 2; 3; 4]%Z |} /\
  __init__ (int_tuples [[1; 2]; [3; 4]]%Z) empty_heap = (Raise TypeError, empty_heap) /\
  ~ (exists m h', __init__ (int_tuples [[1; 2]; [3; 4]]%Z) empty_heap = (Ok m, h')).
Proof.
  repeat split. intros (m & h' & H). discriminate H.
Qed.

(* ================================================================== *)
(** ** The operators: what they compute and what they leave alone *)
(* ================================================================== *)

Lemma read_state l h : snd (np.read l h) = h.
Proof.
  unfold np.read. destruct (arrays h !! l) as [a|]; [|done].
  by destruct (buffers h !! nd_base a).
Qed.

Lemma to_operand_state v h : snd (np.to_operand v h) = h.
Proof. destruct v; simpl; try done. apply read_state. Qed.

Lemma binary_run op x y h :
  np.binary op x y h =
    match binary_value op x y h with
    | Ok r =>
        match np.v_shape r with
        | [] => (Ok (PyInt (hd 0%Z (np.v_data r))), h)
        | _ => (Ok (PyArray (length (arrays h))), push h r)
        end
    | Raise e => (Raise e, h)
    | Unmodelled => (Unmodelled, h)
    end.
Proof.
  unfold np.binary, binary_value, bind.
  pose proof (to_operand_state x h) as Hx.
  destruct (np.to_operand x h) as [[a|e|] hx]; simpl in *; subst hx; try done.
  pose proof (to_operand_state y h) as Hy.
  destruct (np.to_operand y h) as [[b|e|] hy]; simpl in *; subst hy; try done.
  unfold lift. destruct (op a b) as [r| |]; try done.
  by destruct (np.v_shape r).
Qed.

Lemma op_run op self other h :
  apply_op op self other h =
    match op_value op self other h with
    | Ok r => return_result h r
    | Raise e => (Raise e, h)
    | Unmodelled => (Unmodelled, h)
    end.
Proof.
  destruct op; cbn [apply_op op_value];
    unfold __add__, __sub__, __mul__, __matmul__, __pow__,
           np.add, np.subtract, np.multiply, np.matmul, np.power;
    destruct other;
    cbn [isinstance_Matrix2D negb getattr_mat unwrap];
    unfold bind, ret; try done;
    rewrite binary_run; destruct (binary_value _ _ _ _) as [r| |]; try done;
    unfold return_result; by destruct (np.v_shape r).
Qed.

Lemma return_result_array h r :
  np.v_shape r <> [] -> return_result h r = wrap_result h r.
Proof. unfold return_result. by destruct (np.v_shape r). Qed.

Lemma return_result_ok h r m h' :
  return_result h r = (Ok m, h') -> wrap_result h r = (Ok m, h').
Proof. unfold return_result. by destruct (np.v_shape r). Qed.

Lemma wrap_result_cases h r :
  (length (np.v_shape r) = 2 /\
   wrap_result h r = (Ok {| mat := length (arrays h) |}, push h r)) \/
  (length (np.v_shape r) = 1 /\
   wrap_result h r =
     (Ok {| mat := S (length (arrays h)) |},
      push_view (push h r) [1; np.size (np.v_shape r)] (length (buffers h)))) \/
  (length (np.v_shape r) <> 1 /\ length (np.v_shape r) <> 2 /\
   wrap_result h r = (Raise ValueError, push h r)).
Proof.
  unfold wrap_result. pose proof (lookup_push_new h r) as Hl.
  destruct (decide (length (np.v_shape r) = 2)) as [H2|H2].
  { left. split; [done|]. by apply (init_rank2 _ _ _ Hl). }
  destruct (decide (length (np.v_shape r) = 1)) as [H1|H1].
  { right; left. split; [done|].
    rewrite (init_rank1 _ _ _ Hl H1). simpl.
    by rewrite length_app, Nat.add_1_r. }
  right; right. repeat split; try done. by apply (init_rank_other _ _ _ Hl).
Qed.

Lemma grows_refl h : grows h h.
Proof. by repeat split. Qed.

Lemma grows_trans h1 h2 h3 : grows h1 h2 -> grows h2 h3 -> grows h1 h3.
Proof.
  intros (Ha & Hb & Hs) (Ha' & Hb' & Hs'). repeat split.
  - by etrans.
  - by etrans.
  - congruence.
Qed.

Lemma grows_push h v : grows h (push h v).
Proof. repeat split; simpl; by apply prefix_app_r. Qed.

Lemma grows_push_view h s b : grows h (push_view h s b).
Proof. repeat split; simpl; [by apply prefix_app_r | done]. Qed.

Lemma grows_arrays h h' l a :
  grows h h' -> arrays h !! l = Some a -> arrays h' !! l = Some a.
Proof. intros (Ha & _) Hl. by eapply prefix_lookup_Some. Qed.

Lemma grows_buffers h h' b d :
  grows h h' -> buffers h !! b = Some d -> buffers h' !! b = Some d.
Proof. intros (_ & Hb & _) Hl. by eapply prefix_lookup_Some. Qed.

Lemma wrap_result_grows h r : grows h (snd (wrap_result h r)).
Proof.
  destruct (wrap_result_cases h r) as [[_ ->] | [[_ ->] | (_ & _ & ->)]]; simpl.
  - apply grows_push.
  - eapply grows_trans; [apply grows_push | apply grows_push_view].
  - apply grows_push.
Qed.

Lemma wrap_result_ok h r m h' :
  wrap_result h r = (Ok m, h') -> fresh_in h h' m /\ rank2 h' m.
Proof.
  destruct (wrap_result_cases h r) as [[H2 ->] | [[H1 ->] | (_ & _ & ->)]];
    [| |done]; intros [= <- <-].
  - split.
    + eexists. split; [apply lookup_push_new|]. simpl. lia.
    + eexists. split; [apply lookup_push_new|]. done.
  - assert (Hl : arrays (push_view (push h r) [1; np.size (np.v_shape r)]
                           (length (buffers h))) !! S (length (arrays h)) =
                 Some {| nd_shape := [1; np.size (np.v_shape r)];
                         nd_base := length (buffers h) |}).
    { simpl. apply list_lookup_middle. rewrite length_app. simpl. lia. }
    split; eexists; (split; [exact Hl|]); simpl; [lia|done].
Qed.

Lemma init_grows data h : grows h (snd (__init__ data h)).
Proof.
  destruct data as [ | z | s | items | items | l | m ];
    try (rewrite init_other by done; apply grows_refl).
  - rewrite init_list. destruct (np.discover (PyList items)) as [v|e|];
      try apply grows_refl.
    apply (wrap_result_grows h v).
  - destruct (arrays h !! l) as [a|] eqn:Hl.
    + destruct (decide (length (nd_shape a) = 1)) as [H1|H1].
      { rewrite (init_rank1 h l a) by done. apply grows_push_view. }
      destruct (decide (length (nd_shape a) = 2)) as [H2|H2].
      { rewrite (init_rank2 h l a) by done. apply grows_refl. }
      rewrite (init_rank_other h l a) by done. apply grows_refl.
    + rewrite init_dangling by done. apply grows_refl.
Qed.

Lemma init_rank2_result data h m h' :
  __init__ data h = (Ok m, h') -> rank2 h' m.
Proof.
  destruct data as [ | z | s | items | items | l | m0 ];
    try (rewrite init_other by done; discriminate).
  - rewrite init_list. destruct (np.discover (PyList items)) as [v|e|];
      try discriminate.
    intros H. by apply (wrap_result_ok h v).
  - destruct (arrays h !! l) as [a|] eqn:Hl.
    + destruct (decide (length (nd_shape a) = 1)) as [H1|H1].
      { rewrite (init_rank1 h l a) by done. intros [= <- <-].
        eexists. split; [apply lookup_push_view_new|done]. }
      destruct (decide (length (nd_shape a) = 2)) as [H2|H2].
      { rewrite (init_rank2 h l a) by done. intros [= <- <-]. by exists a. }
      rewrite (init_rank_other h l a) by done. discriminate.
    + rewrite init_dangling by done. discriminate.
Qed.

Lemma return_result_grows h r : grows h (snd (return_result h r)).
Proof.
  unfold return_result. destruct (np.v_shape r) eqn:Hs; [apply grows_refl|].
  apply wrap_result_grows.
Qed.

Lemma op_grows op self other h : grows h (snd (apply_op op self other h)).
Proof.
  rewrite op_run. destruct (op_value op self other h) as [r|e|];
    try apply grows_refl.
  apply return_result_grows.
Qed.

Lemma op_ok op self other h m h' :
  apply_op op self other h = (Ok m, h') -> fresh_in h h' m /\ rank2 h' m.
Proof.
  rewrite op_run. destruct (op_value op self other h) as [r|e|];
    try discriminate.
  intros H%return_result_ok. by apply (wrap_result_ok h r).
Qed.

Lemma content_lookup h m v :
  content h m = Ok v <->
  exists a, arrays h !! mat m = Some a /\
            buffers h !! nd_base a = Some (np.v_data v) /\
            np.v_shape v = nd_shape a.
Proof.
  unfold content, np.read. split.
  - destruct (arrays h !! mat m) as [a|]; [|done].
    destruct (buffers h !! nd_base a) as [d|] eqn:Hd; [|done].
    simpl. intros [= <-]. by exists a.
  - intros (a & -> & Hb & Hs). rewrite Hb. simpl. destruct v; simpl in *.
    by subst.
Qed.

Lemma grows_content h h' m v :
  grows h h' -> content h m = Ok v -> content h' m = Ok v.
Proof.
  intros Hg (a & Ha & Hb & Hs)%content_lookup. apply content_lookup.
  exists a. split; [by eapply grows_arrays|]. split; [by eapply grows_buffers|done].
Qed.

Lemma grows_rank2 h h' m : grows h h' -> rank2 h m -> rank2 h' m.
Proof. intros Hg (a & Ha & Hr). exists a. split; [by eapply grows_arrays|done]. Qed.

Lemma fresh_not_aliased h h' r m v :
  grows h h' -> fresh_in h h' r -> content h m = Ok v -> ~ aliases h' r m.
Proof.
  intros Hg (a & Ha & Hlo & Hbase) (am & Hm & Hb & _)%content_lookup.
  pose proof (lookup_lt_Some _ _ _ Hm) as Hlt.
  pose proof (lookup_lt_Some _ _ _ Hb) as Hblt.
  intros [Heq | (a1 & a2 & H1 & H2 & Hbb)]; [lia|].
  rewrite Ha in H1. injection H1 as <-.
  pose proof (grows_arrays _ _ _ _ Hg Hm) as Hm'.
  assert (a2 = am) as -> by congruence. lia.
Qed.

Lemma setitem_flat_arrays l i v h :
  arrays (snd (np.setitem_flat l i v h)) = arrays h.
Proof.
  unfold np.setitem_flat. destruct (arrays h !! l) as [a|]; [|done].
  destruct (buffers h !! nd_base a) as [d|]; [|done].
  destruct (np.in_int64 v); [|done]. simpl.
  by destruct (length d <=? i).
Qed.

Lemma set_shape_rank2 ms l s h m :
  harmless_shape_write ms l s -> In m ms -> rank2 h m ->
  rank2 (snd (np.set_shape l s h)) m.
Proof.
  intros Hs Hm (a & Ha & Hr). unfold np.set_shape.
  destruct (arrays h !! l) as [al|] eqn:Hl; [|by exists a].
  destruct (np.size s =? np.size (nd_shape al)); [|by exists a]. simpl.
  destruct (decide (mat m = l)) as [Heq|Hne].
  - destruct Hs as [Hs|Hs]; [|by destruct (Hs m Hm)].
    exists {| nd_shape := s; nd_base := nd_base al |}. split; [|exact Hs].
    rewrite Heq. apply list_lookup_insert_eq. by eapply lookup_lt_Some.
  - exists a. split; [|done]. simpl. by rewrite list_lookup_insert_ne.
Qed.

(** C7, as the code has it.  Whatever the constructor returns holds a
    rank-2 array, and so does whatever an operator returns.  Every instance
    a program holds keeps a rank-2 array through constructor calls,
    operator calls, in-place writes of entries, and those in-place shape
    writes that keep rank 2 or touch no array an instance wraps. *)
Theorem C7_rank2_invariant :
  (forall data h m h', __init__ data h = (Ok m, h') -> rank2 h' m) /\
  (forall op self other h m h',
      apply_op op self other h = (Ok m, h') -> rank2 h' m) /\
  (forall h0 h ms,
      reachable harmless_shape_write h0 h ms -> forall m, In m ms -> rank2 h m).
Proof.
  refine (conj init_rank2_result (conj _ _)).
  - intros op self other h m h' H. by apply op_ok in H as [_ H].
  - intros h0 h ms Hr.
    induction Hr as [| h ms data Hr IH | h ms op self other Hr IH Hin
                     | h ms l i v Hr IH | h ms l s Hr IH Hs].
    + intros m [].
    + intros m Hm. pose proof (init_grows data h) as Hg.
      destruct (__init__ data h) as [[m'|e|] h'] eqn:Hrun; simpl in *;
        try (eapply grows_rank2; [exact Hg | by apply IH]).
      destruct Hm as [<- | Hm].
      * by eapply init_rank2_result.
      * eapply grows_rank2; [exact Hg | by apply IH].
    + intros m Hm. pose proof (op_grows op self other h) as Hg.
      destruct (apply_op op self other h) as [[m'|e|] h'] eqn:Hrun; simpl in *;
        try (eapply grows_rank2; [exact Hg | by apply IH]).
      destruct Hm as [<- | Hm].
      * by apply op_ok in Hrun as [_ H].
      * eapply grows_rank2; [exact Hg | by apply IH].
    + intros m Hm. destruct (IH m Hm) as (a & Ha & Hrank).
      exists a. by rewrite setitem_flat_arrays.
    + intros m Hm. apply (set_shape_rank2 ms); [done | done | by apply IH].
Qed.

(** C7 as stated fails: the constructor keeps the caller's rank-2 array
    itself, so after [arr = np.array([[1, 2], [3, 4]])], [m = Matrix2D(arr)]
    and [arr.shape = (4,)] the instance [m] holds an array of rank 1. *)
Lemma C7_counterexample :
  __init__ (PyArray 0) heap_2x2 = (Ok {| mat := 0 |}, heap_2x2) /\
  np.set_shape 0 [4] heap_2x2 =
    (Ok tt, {| arrays := [{| nd_shape := [4]; nd_base := 0 |}];
               buffers := [[1; 2; 3; 4]%Z]; stdout := [] |}) /\
  reachable any_shape_write heap_2x2 (snd (np.set_shape 0 [4] heap_2x2))
            [{| mat := 0 |}] /\
  shape {| mat := 0 |} (snd (np.set_shape 0 [4] heap_2x2)) =
    (Ok [4], snd (np.set_shape 0 [4] heap_2x2)) /\
  ~ rank2 (snd (np.set_shape 0 [4] heap_2x2)) {| mat := 0 |}.
Proof.
  split; [reflexivity|]. split; [reflexivity|]. split; [|split; [reflexivity|]].
  - exact (reach_reshape any_shape_write heap_2x2 heap_2x2 [{| mat := 0 |}] 0 [4]
             (reach_construct any_shape_write heap_2x2 heap_2x2 [] (PyArray 0)
                (reach_start any_shape_write heap_2x2)) I).
  - intros (a & Ha & Hr). injection Ha as <-. discriminate Hr.
Qed.

(** C8. An operator leaves the store as it found it and only adds to it:
    every matrix, so each operand, holds after the call the shape and the
    entries it held before; the instance returned wraps an array object
    and a buffer that did not exist before the call, aliased to no matrix
    that did. *)
Theorem C8_operators_do_not_mutate op self other h o h' :
  apply_op op self other h = (o, h') ->
  grows h h' /\
  (forall m v, content h m = Ok v -> content h' m = Ok v) /\
  (forall r, o = Ok r ->
     fresh_in h h' r /\
     forall m v, content h m = Ok v -> ~ aliases h' r m).
Proof.
  intros Hrun. pose proof (op_grows op self other h) as Hg.
  rewrite Hrun in Hg. simpl in Hg.
  split; [done|]. split.
  - intros m v. by apply grows_content.
  - intros r ->. apply op_ok in Hrun as [Hf _]. split; [done|].
    intros m v. by apply fresh_not_aliased.
Qed.

Lemma C7_witness :
  rank2 demo_heap demo_B /\
  rank2 (snd (__add__ demo_A (PyMatrix demo_B) demo_heap)) {| mat := 3 |}.
Proof.
  split.
  - refine (proj2 (proj2 C7_rank2_invariant) empty_heap demo_heap [demo_B; demo_A]
              (reach_construct harmless_shape_write empty_heap _ [demo_A]
                 (int_list [5; 6]%Z)
                 (reach_construct harmless_shape_write empty_heap _ []
                    (int_rows [[1; 2]; [3; 4]]%Z)
                    (reach_start harmless_shape_write empty_heap)))
              demo_B (or_introl eq_refl)).
  - exact (proj1 (proj2 C7_rank2_invariant) Add demo_A (PyMatrix demo_B) demo_heap
             {| mat := 3 |} _ eq_refl).
Defined.

Lemma C8_witness :
  grows demo_heap (snd (__add__ demo_A (PyMatrix demo_B) demo_heap)) /\
  fresh_in demo_heap (snd (__add__ demo_A (PyMatrix demo_B) demo_heap)) {| mat := 3 |}.
Proof.
  pose proof (C8_operators_do_not_mutate Add demo_A (PyMatrix demo_B) demo_heap
                (Ok {| mat := 3 |})
                (snd (__add__ demo_A (PyMatrix demo_B) demo_heap)) eq_refl)
    as (Hg & _ & Hf).
  split; [exact Hg|]. exact (proj1 (Hf _ eq_refl)).
Defined.

(* ================================================================== *)
(** ** int64 arithmetic *)
(* ================================================================== *)

Lemma in_int64_range z :
  np.in_int64 z = true <-> (- 2 ^ 63 <= z < 2 ^ 63)%Z.
Proof. unfold np.in_int64. rewrite andb_true_iff, Z.leb_le, Z.ltb_lt. done. Qed.

Lemma int64_wrap_id z : np.in_int64 z = true -> np.int64_wrap z = z.
Proof.
  intros H%in_int64_range. unfold np.int64_wrap.
  rewrite Z.mod_small; lia.
Qed.

Lemma int64_wrap_range z : np.in_int64 (np.int64_wrap z) = true.
Proof.
  apply in_int64_range. unfold np.int64_wrap.
  pose proof (Z.mod_pos_bound (z + 2 ^ 63) (2 ^ 64) ltac:(lia)). lia.
Qed.

(** Wrapping is congruent to the identity modulo [2 ^ 64]. *)
Lemma int64_wrap_mod z : (np.int64_wrap z mod 2 ^ 64 = z mod 2 ^ 64)%Z.
Proof.
  unfold np.int64_wrap.
  rewrite Zminus_mod_idemp_l. f_equal. lia.
Qed.

Lemma int64_wrap_congr x y :
  (x mod 2 ^ 64 = y mod 2 ^ 64)%Z -> np.int64_wrap x = np.int64_wrap y.
Proof.
  intros H. unfold np.int64_wrap. f_equal.
  rewrite <- (Zplus_mod_idemp_l x), <- (Zplus_mod_idemp_l y). by rewrite H.
Qed.

Lemma int64_wrap_add_l x y : np.int64_wrap (np.int64_wrap x + y) = np.int64_wrap (x + y).
Proof.
  apply int64_wrap_congr.
  by rewrite <- Zplus_mod_idemp_l, int64_wrap_mod, Zplus_mod_idemp_l.
Qed.

Lemma int64_wrap_add_r x y : np.int64_wrap (x + np.int64_wrap y) = np.int64_wrap (x + y).
Proof. rewrite (Z.add_comm x), int64_wrap_add_l. f_equal. lia. Qed.

Lemma sub64_add64 x y : np.in_int64 x = true -> np.sub64 (np.add64 x y) y = x.
Proof.
  intros Hx. unfold np.sub64, np.add64.
  replace (np.int64_wrap (x + y) - y)%Z with (np.int64_wrap (x + y) + - y)%Z by lia.
  rewrite int64_wrap_add_l. replace (x + y + - y)%Z with x by lia.
  by apply int64_wrap_id.
Qed.

(* ================================================================== *)
(** ** Broadcasting between equal shapes *)
(* ================================================================== *)

Lemma chunks_concat n k (d : list Z) :
  length d = k * n -> concat (np.chunks n k d) = d.
Proof.
  revert d. induction k as [|k IH]; intros d Hd; simpl in *.
  - by destruct d.
  - rewrite IH; [apply take_drop|]. rewrite length_drop. lia.
Qed.

Lemma chunks_lengths n k (d : list Z) :
  length d = k * n -> Forall (fun c => length c = n) (np.chunks n k d).
Proof.
  revert d. induction k as [|k IH]; intros d Hd; simpl in *; constructor.
  - rewrite length_take. lia.
  - apply IH. rewrite length_drop. lia.
Qed.

Lemma chunks_count n k (d : list Z) : length (np.chunks n k d) = k.
Proof. revert d. induction k as [|k IH]; intros d; simpl; [done|]. by rewrite IH. Qed.

Lemma bcast_same s (d : list Z) : length d = np.size s -> np.bcast s s d = d.
Proof.
  revert d. induction s as [|n s IH]; intros d Hd; [done|].
  cbn [np.bcast]. rewrite Nat.eqb_refl.
  change (np.size (n :: s)) with (n * np.size s) in Hd.
  rewrite <- (chunks_concat (np.size s) n d Hd) at 2. f_equal.
  rewrite <- (map_id (np.chunks (np.size s) n d)) at 2.
  apply map_ext_Forall.
  eapply Forall_impl; [apply (chunks_lengths _ _ _ Hd)|].
  intros c Hc. by apply IH.
Qed.

Lemma pad_same s : np.pad (length s) s = s.
Proof. unfold np.pad. by rewrite Nat.sub_diag. Qed.

Lemma bdim_same a : np.bdim a a = Some a.
Proof. unfold np.bdim. by rewrite Nat.eqb_refl. Qed.

Lemma bshape_same s : np.bshape s s = Some s.
Proof. induction s as [|a s IH]; simpl; [done|]. by rewrite bdim_same, IH. Qed.

Lemma broadcast_shapes_same s : np.broadcast_shapes s s = Some s.
Proof.
  unfold np.broadcast_shapes. by rewrite Nat.max_id, pad_same, bshape_same.
Qed.

Lemma ufunc2_same_shape f s da db :
  length da = np.size s -> length db = np.size s ->
  np.ufunc2 f {| np.v_shape := s; np.v_data := da |}
              {| np.v_shape := s; np.v_data := db |} =
    Ok {| np.v_shape := s; np.v_data := zip_with f da db |}.
Proof.
  intros Ha Hb. unfold np.ufunc2, np.broadcast_to. simpl.
  by rewrite broadcast_shapes_same, pad_same, !bcast_same.
Qed.

Lemma read_content h m : fst (np.read (mat m) h) = content h m.
Proof. done. Qed.

Lemma binary_value_matrices op h A B va vb :
  content h A = Ok va -> content h B = Ok vb ->
  binary_value op (PyArray (mat A)) (PyArray (mat B)) h = op va vb.
Proof.
  intros Ha Hb. unfold binary_value. cbn [np.to_operand].
  by rewrite !read_content, Ha, Hb.
Qed.

Lemma content_push h v :
  content (push h v) {| mat := length (arrays h) |} = Ok v.
Proof.
  apply content_lookup. eexists. split; [apply lookup_push_new|].
  split; [|done]. simpl. by apply list_lookup_middle.
Qed.

(** An operator whose array comes out with rank 2 returns it as it is. *)
Lemma op_rank2_result op self other h r :
  op_value op self other h = Ok r -> length (np.v_shape r) = 2 ->
  apply_op op self other h = (Ok {| mat := length (arrays h) |}, push h r) /\
  content (push h r) {| mat := length (arrays h) |} = Ok r.
Proof.
  intros Hv Hr. rewrite op_run, Hv. split; [|apply content_push].
  rewrite return_result_array by (by destruct (np.v_shape r)).
  destruct (wrap_result_cases h r) as [[_ ->] | [[H1 _] | (_ & H2 & _)]];
    [done | lia | lia].
Qed.

Lemma zip_with_sub_add (da db : list Z) :
  length da = length db -> forallb np.in_int64 da = true ->
  zip_with np.sub64 (zip_with np.add64 da db) db = da.
Proof.
  revert db. induction da as [|x da IH]; intros [|y db]; simpl; try done.
  intros [= Hl] [Hx Hda]%andb_prop. by rewrite sub64_add64, IH.
Qed.




(* ================================================================== *)
(** ** The matrix product *)
(* ================================================================== *)

Lemma chunks_lookup n k (d : list Z) i :
  i < k -> np.chunks n k d !! i = Some (take n (drop (i * n) d)).
Proof.
  revert d i. induction k as [|k IH]; intros d i Hi; [lia|].
  destruct i as [|i]; simpl; [done|].
  rewrite IH by lia. by rewrite drop_drop.
Qed.

Lemma nth_chunk n (d : list Z) i j :
  j < n -> nth j (take n (drop (i * n) d)) 0%Z = nth (i * n + j) d 0%Z.
Proof.
  intros Hj. by rewrite !nth_lookup, lookup_take_lt, lookup_drop.
Qed.

Lemma concat_uniform_lookup {A} n (ls : list (list A)) i j l :
  Forall (fun c => length c = n) ls ->
  ls !! i = Some l -> j < n ->
  concat ls !! (i * n + j) = l !! j.
Proof.
  intros Hall. revert i. induction Hall as [|c ls Hc Hall IH]; intros i Hi Hj.
  - done.
  - destruct i as [|i]; simpl in *.
    + injection Hi as ->. rewrite lookup_app_l; [done|lia].
    + rewrite lookup_app_r by lia.
      replace (n + i * n + j - length c) with (i * n + j) by lia. by apply IH.
Qed.

Lemma concat_uniform_length {A} n (ls : list (list A)) :
  Forall (fun c => length c = n) ls -> length (concat ls) = length ls * n.
Proof. induction 1 as [|c ls Hc Hall IH]; simpl; [done|]. rewrite length_app. lia. Qed.

(** The running sum of [dot], step by step in int64, is the wrapped sum. *)
Lemma dot_from acc (ps : list (Z * Z)) :
  fold_left (fun a xy => np.add64 a (np.mul64 (fst xy) (snd xy))) ps
    (np.int64_wrap acc) =
  np.int64_wrap (acc + fold_right (fun xy s => (fst xy * snd xy + s)%Z) 0%Z ps).
Proof.
  revert acc. induction ps as [|[x y] ps IH]; intros acc; simpl.
  - f_equal. lia.
  - unfold np.add64 at 2, np.mul64 at 2.
    rewrite int64_wrap_add_l, int64_wrap_add_r, IH. f_equal. lia.
Qed.

Lemma dot_sum_prod r c : np.dot r c = np.int64_wrap (sum_prod r c).
Proof. unfold np.dot. apply (dot_from 0). Qed.

Lemma sum_upto_S k f :
  sum_upto (S k) f = (f 0%nat + sum_upto k (fun l => f (S l)))%Z.
Proof.
  unfold sum_upto. cbn [seq map fold_right].
  by rewrite <- seq_shift, map_map.
Qed.

Lemma sum_upto_ext k f g :
  (forall l, l < k -> f l = g l) -> sum_upto k f = sum_upto k g.
Proof.
  revert f g. induction k as [|k IH]; intros f g H; [done|].
  rewrite !sum_upto_S, (H 0) by lia. f_equal.
  apply IH. intros l Hl. apply H. lia.
Qed.

Lemma sum_prod_upto r c :
  length r = length c ->
  sum_prod r c = sum_upto (length r) (fun l => nth l r 0 * nth l c 0)%Z.
Proof.
  revert c. induction r as [|x r IH]; intros [|y c] Hl; try done.
  injection Hl as Hl. cbn [length]. rewrite sum_upto_S.
  unfold sum_prod in *. simpl. by rewrite IH.
Qed.

Lemma column_length rows j : length (np.column rows j) = length rows.
Proof. unfold np.column. apply length_map. Qed.

Lemma column_nth n k (db : list Z) j l :
  l < k -> j < n ->
  nth l (np.column (np.chunks n k db) j) 0%Z = nth (l * n + j) db 0%Z.
Proof.
  intros Hl Hj. unfold np.column.
  rewrite nth_lookup, list_lookup_fmap, chunks_lookup by done. simpl.
  by apply nth_chunk.
Qed.

Lemma dot_row_column m k n (da db : list Z) i j :
  length da = m * k -> i < m -> j < n ->
  np.dot (take k (drop (i * k) da)) (np.column (np.chunks n k db) j) =
    product_entry k n da db i j.
Proof.
  intros Hda Hi Hj.
  assert (Hrow : length (take k (drop (i * k) da)) = k).
  { rewrite length_take, length_drop. nia. }
  rewrite dot_sum_prod, sum_prod_upto
    by (by rewrite column_length, chunks_count).
  unfold product_entry. f_equal. rewrite Hrow.
  apply sum_upto_ext. intros l Hl. unfold entry.
  by rewrite nth_chunk, column_nth.
Qed.

Lemma matmul_entries m k n (da db : list Z) :
  length da = m * k ->
  exists d,
    np.matmul_value {| np.v_shape := [m; k]; np.v_data := da |}
                    {| np.v_shape := [k; n]; np.v_data := db |} =
      Ok {| np.v_shape := [m; n]; np.v_data := d |} /\
    length d = m * n /\
    forall i j, i < m -> j < n ->
      d !! (i * n + j) = Some (product_entry k n da db i j).
Proof.
  intros Hda. unfold np.matmul_value. simpl. rewrite Nat.eqb_refl.
  set (F := fun r : list Z =>
              map (fun j => np.dot r (np.column (np.chunks n k db) j)) (seq 0 n)).
  assert (Hall : Forall (fun c => length c = n) (map F (np.chunks k m da))).
  { apply Forall_forall. intros c [r [-> _]]%list_elem_of_fmap.
    unfold F. by rewrite length_map, length_seq. }
  eexists. split; [reflexivity|]. fold F. split.
  - by rewrite (concat_uniform_length n), length_map, chunks_count.
  - intros i j Hi Hj.
    rewrite (concat_uniform_lookup n _ i j (F (take k (drop (i * k) da)))); try done.
    + unfold F. rewrite list_lookup_fmap, lookup_seq_lt by done. simpl.
      f_equal. by apply (dot_row_column m).
    + by rewrite list_lookup_fmap, chunks_lookup.
Qed.

(** C4, as the code has it.  [@] with a second operand that is no
    [Matrix2D] (an int, a list, a tuple, a string, [None], a raw array)
    raises a [TypeError] and leaves the store alone.  With a [Matrix2D]
    whose row count equals the column count of the first, it returns a new
    instance that holds the [m x n] product computed in int64: entry
    [(i, j)] is the sum of the products along row [i] and column [j]
    wrapped to 64 bits, which is that sum itself whenever it fits. *)
Theorem C4_matmul :
  (forall self other h,
      isinstance_Matrix2D other = false ->
      __matmul__ self other h = (Raise TypeError, h)) /\
  (forall h A B m k n da db,
      content h A = Ok {| np.v_shape := [m; k]; np.v_data := da |} ->
      content h B = Ok {| np.v_shape := [k; n]; np.v_data := db |} ->
      length da = m * k ->
      exists R h' d,
        __matmul__ A (PyMatrix B) h = (Ok R, h') /\
        fresh_in h h' R /\
        content h' R = Ok {| np.v_shape := [m; n]; np.v_data := d |} /\
        length d = m * n /\
        forall i j, i < m -> j < n ->
          d !! (i * n + j) =
            Some (np.int64_wrap (exact_product_entry k n da db i j)) /\
          (np.in_int64 (exact_product_entry k n da db i j) = true ->
           d !! (i * n + j) = Some (exact_product_entry k n da db i j))).
Proof.
  split.
  - intros self other h Hn. by destruct other.
  - intros h A B m k n da db HA HB Hda.
    destruct (matmul_entries m k n da db Hda) as (d & Hmm & Hlen & Hent).
    destruct (op_rank2_result MatrixMultiply A (PyMatrix B) h
                {| np.v_shape := [m; n]; np.v_data := d |}) as [Hrun Hc]; [|done|].
    { simpl. by rewrite (binary_value_matrices _ _ _ _ _ _ HA HB). }
    eexists _, _, d. split; [exact Hrun|]. split.
    + by apply (op_ok MatrixMultiply A (PyMatrix B) h) in Hrun as [Hf _].
    + split; [done|]. split; [done|]. intros i j Hi Hj.
      pose proof (Hent i j Hi Hj) as He. split; [exact He|].
      intros Hfit. rewrite He. f_equal. by apply int64_wrap_id.
Qed.

Lemma C4_witness :
  __matmul__ {| mat := 0 |} (PyArray 1) heap_pair = (Raise TypeError, heap_pair) /\
  exists R h' d,
    __matmul__ {| mat := 0 |} (PyMatrix {| mat := 1 |}) heap_pair = (Ok R, h') /\
    content h' R = Ok {| np.v_shape := [2; 2]; np.v_data := d |} /\
    d !! 3 = Some 220%Z.
Proof.
  split.
  - exact (proj1 C4_matmul {| mat := 0 |} (PyArray 1) heap_pair eq_refl).
  - destruct (proj2 C4_matmul heap_pair {| mat := 0 |} {| mat := 1 |} 2 2 2
                [1; 2; 3; 4]%Z [10; 20; 30; 40]%Z eq_refl eq_refl eq_refl)
      as (R & h' & d & Hrun & _ & Hc & _ & Hent).
    exists R, h', d. split; [exact Hrun|]. split; [exact Hc|].
    exact (proj2 (Hent 1 1 ltac:(lia) ltac:(lia)) eq_refl).
Defined.

(** C4 as stated fails where a sum of products leaves int64: for
    [A = B = [[2^32]]] the standard product is [[2^64]], and [A @ B] holds
    [[0]]. *)
Lemma C4_counterexample :
  content heap_large {| mat := 2 |} = Ok (matrix 1 1 [4294967296%Z]) /\
  exact_product_entry 1 1 [4294967296%Z] [4294967296%Z] 0 0 =
    18446744073709551616%Z /\
  result_content (__matmul__ {| mat := 2 |} (PyMatrix {| mat := 2 |}) heap_large) =
    Ok (matrix 1 1 [0%Z]) /\
  (0 <> 18446744073709551616)%Z.
Proof.
  refine (conj _ (conj _ (conj _ _))); [reflexivity | by vm_compute | | discriminate].
  by vm_compute.
Qed.

(* ================================================================== *)
(** ** The demo expression *)
(* ================================================================== *)

(** C2. With [A = Matrix2D([[1, 2], [3, 4]])] and [B = Matrix2D([5, 6])],
    stored as the row [[5, 6]], the steps of [(A + B) @ ((A - B) ** 2)]
    give [[6, 8], [8, 10]], [[-4, -4], [-2, -2]], [[16, 16], [4, 4]] and at
    last [[128, 128], [168, 168]]; [demo_complex_expression] returns an
    instance holding that matrix and prints its rendering. *)
Theorem C2_demo_expression (array_str : np.value -> string) :
  let rA := __init__ (PyList [PyList [PyInt 1; PyInt 2]; PyList [PyInt 3; PyInt 4]])
              empty_heap in
  let rB := __init__ (PyList [PyInt 5; PyInt 6]) (snd rA) in
  let rs := __add__ demo_A (PyMatrix demo_B) (snd rB) in
  let rd := __sub__ demo_A (PyMatrix demo_B) (snd rs) in
  let rp := __pow__ {| mat := 4 |} (PyInt 2) (snd rd) in
  let rr := __matmul__ {| mat := 3 |} (PyMatrix {| mat := 5 |}) (snd rp) in
  (fst rA = Ok demo_A /\ result_content rA = Ok (matrix 2 2 [1; 2; 3; 4]%Z)) /\
  (fst rB = Ok demo_B /\ result_content rB = Ok (matrix 1 2 [5; 6]%Z)) /\
  (fst rs = Ok {| mat := 3 |} /\ result_content rs = Ok (matrix 2 2 [6; 8; 8; 10]%Z)) /\
  (fst rd = Ok {| mat := 4 |} /\
   result_content rd = Ok (matrix 2 2 [-4; -4; -2; -2]%Z)) /\
  (fst rp = Ok {| mat := 5 |} /\ result_content rp = Ok (matrix 2 2 [16; 16; 4; 4]%Z)) /\
  result_content rr = Ok (matrix 2 2 [128; 128; 168; 168]%Z) /\
  result_content (demo_complex_expression array_str empty_heap) =
    Ok (matrix 2 2 [128; 128; 168; 168]%Z) /\
  stdout (snd (demo_complex_expression array_str empty_heap)) =
    ["Result of (A + B) @ (A - B) ** 2:";
     array_str (matrix 2 2 [128; 128; 168; 168]%Z)].
Proof.
  cbv zeta. repeat split; vm_compute; reflexivity.
Qed.

(* ================================================================== *)
(** ** Broadcasting a scalar; writes through an alias *)
(* ================================================================== *)

Lemma size_ones n : np.size (repeat 1 n) = 1.
Proof. induction n as [|n IH]; [done|]. simpl. unfold np.size in *. simpl. lia. Qed.

Lemma concat_repeat_repeat (z : Z) n k :
  concat (repeat (repeat z n) k) = repeat z (k * n).
Proof.
  induction k as [|k IH]; simpl; [done|]. by rewrite IH, repeat_app.
Qed.

Lemma bcast_scalar s (z : Z) :
  np.bcast (repeat 1 (length s)) s [z] = repeat z (np.size s).
Proof.
  induction s as [|n s IH]; [done|].
  cbn [length repeat np.bcast].
  change (np.size (n :: s)) with (n * np.size s).
  destruct (Nat.eqb_spec 1 n) as [<-|Hn].
  - rewrite size_ones. simpl. rewrite IH, app_nil_r. f_equal. lia.
  - by rewrite IH, concat_repeat_repeat.
Qed.

Lemma bdim_one a : np.bdim a 1 = Some a.
Proof.
  unfold np.bdim. destruct (Nat.eqb_spec a 1) as [->|H]; [done|].
  by destruct (Nat.eqb_spec a 1).
Qed.

Lemma bshape_ones s : np.bshape s (repeat 1 (length s)) = Some s.
Proof. induction s as [|a s IH]; simpl; [done|]. by rewrite bdim_one, IH. Qed.

Lemma broadcast_shapes_scalar s : np.broadcast_shapes s [] = Some s.
Proof.
  unfold np.broadcast_shapes. simpl. rewrite Nat.max_0_r, pad_same.
  unfold np.pad. simpl. rewrite Nat.sub_0_r, app_nil_r. apply bshape_ones.
Qed.

Lemma zip_with_mul_one (d : list Z) n :
  length d <= n -> forallb np.in_int64 d = true ->
  zip_with np.mul64 d (repeat 1%Z n) = d.
Proof.
  revert n. induction d as [|x d IH]; intros [|n]; simpl; try done; [lia|].
  intros Hl [Hx Hd]%andb_prop. rewrite IH by (done || lia).
  f_equal. unfold np.mul64. rewrite Z.mul_1_r. by apply int64_wrap_id.
Qed.

(** [a * 1] holds what [a] holds. *)
Lemma multiply_by_one s d :
  length d = np.size s -> forallb np.in_int64 d = true ->
  np.ufunc2 np.mul64 {| np.v_shape := s; np.v_data := d |} (scalar 1) =
    Ok {| np.v_shape := s; np.v_data := d |}.
Proof.
  intros Hl Hd. unfold np.ufunc2, np.broadcast_to. simpl.
  rewrite broadcast_shapes_scalar, pad_same, (bcast_same s d Hl).
  unfold np.pad. simpl. rewrite Nat.sub_0_r, app_nil_r, bcast_scalar.
  rewrite zip_with_mul_one; [done | lia | done].
Qed.

Lemma forallb_insert (d : list Z) i v :
  forallb np.in_int64 d = true -> np.in_int64 v = true ->
  forallb np.in_int64 (<[i := v]> d) = true.
Proof.
  revert i. induction d as [|x d IH]; intros i; simpl; [done|].
  intros [Hx Hd]%andb_prop Hv. destruct i as [|i]; simpl.
  - by rewrite Hv, Hd.
  - by rewrite Hx, IH.
Qed.

Lemma setitem_flat_ok h l a d i v h1 :
  arrays h !! l = Some a -> buffers h !! nd_base a = Some d ->
  np.setitem_flat l i v h = (Ok tt, h1) ->
  np.in_int64 v = true /\ i < length d /\
  arrays h1 = arrays h /\
  buffers h1 !! nd_base a = Some (<[i := v]> d).
Proof.
  intros Ha Hb. unfold np.setitem_flat. rewrite Ha, Hb.
  destruct (np.in_int64 v); simpl; [|done].
  destruct (Nat.leb_spec (length d) i); [done|].
  intros [= <-]. simpl. repeat split; try done.
  apply list_lookup_insert_eq. by eapply lookup_lt_Some.
Qed.

Lemma binary_value_scalar op h A va z :
  content h A = Ok va -> np.in_int64 z = true ->
  binary_value op (PyArray (mat A)) (PyInt z) h = op va (scalar z).
Proof.
  intros Ha Hz. unfold binary_value. cbn [np.to_operand].
  rewrite read_content, Ha. unfold lift. simpl. by rewrite Hz.
Qed.

(** C10. Given an existing rank-2 array, the constructor stores that very
    array object: the instance refers to the caller's array, and the store
    is left as it was (nothing is copied).  So a later in-place write by
    the caller shows through the instance: after [arr.flat[i] = v] the
    instance holds the written entry, renders it, and computes with it
    ([m * 1] holds the written data); after [arr.shape = s] the method
    [shape()] answers [s]. *)
Theorem C10_constructor_aliases_input h l a d :
  arrays h !! l = Some a -> length (nd_shape a) = 2 ->
  buffers h !! nd_base a = Some d ->
  length d = np.size (nd_shape a) -> forallb np.in_int64 d = true ->
  __init__ (PyArray l) h = (Ok {| mat := l |}, h) /\
  (forall i v h1,
      np.setitem_flat l i v h = (Ok tt, h1) ->
      let written := {| np.v_shape := nd_shape a; np.v_data := <[i := v]> d |} in
      <[i := v]> d !! i = Some v /\
      content h1 {| mat := l |} = Ok written /\
      (forall array_str,
          __str__ array_str {| mat := l |} h1 = (Ok (array_str written), h1)) /\
      result_content (__mul__ {| mat := l |} (PyInt 1) h1) = Ok written) /\
  (forall s h1,
      np.set_shape l s h = (Ok tt, h1) ->
      shape {| mat := l |} h1 = (Ok s, h1)).
Proof.
  intros Ha Hr Hb Hlen Hd. split; [by apply (init_rank2 h l a)|]. split.
  - intros i v h1 Hset written.
    destruct (setitem_flat_ok _ _ _ _ _ _ _ Ha Hb Hset) as (Hv & Hi & Harr & Hbuf).
    assert (Hc : content h1 {| mat := l |} = Ok written).
    { apply content_lookup. exists a. simpl. by rewrite Harr. }
    split; [by apply list_lookup_insert_eq|]. split; [done|]. split.
    + intros array_str. unfold __str__, bind.
      pose proof (read_state l h1) as Hst. pose proof (read_content h1 {| mat := l |}) as Hrd.
      simpl in *. rewrite Hc in Hrd.
      destruct (np.read l h1) as [o h2]. simpl in *. by subst.
    + destruct (op_rank2_result Multiply {| mat := l |} (PyInt 1) h1 written)
        as [Hrun Hcp]; [| done |].
      * simpl. rewrite (binary_value_scalar _ _ _ _ 1 Hc eq_refl).
        apply multiply_by_one.
        -- by rewrite length_insert.
        -- by apply forallb_insert.
      * change (__mul__ {| mat := l |} (PyInt 1) h1)
          with (apply_op Multiply {| mat := l |} (PyInt 1) h1).
        by rewrite Hrun.
  - intros s h1. unfold np.set_shape, shape, np.shape. rewrite Ha.
    destruct (np.size s =? np.size (nd_shape a)); [|done].
    intros [= <-]. simpl.
    rewrite list_lookup_insert_eq by (by eapply lookup_lt_Some). done.
Qed.

Lemma C10_witness :
  __init__ (PyArray 0) heap_2x2 = (Ok {| mat := 0 |}, heap_2x2) /\
  content (snd (np.setitem_flat 0 3 99%Z heap_2x2)) {| mat := 0 |} =
    Ok (matrix 2 2 [1; 2; 3; 99]%Z) /\
  result_content (__mul__ {| mat := 0 |} (PyInt 1)
                    (snd (np.setitem_flat 0 3 99%Z heap_2x2))) =
    Ok (matrix 2 2 [1; 2; 3; 99]%Z) /\
  shape {| mat := 0 |} (snd (np.set_shape 0 [4; 1] heap_2x2)) =
    (Ok [4; 1], snd (np.set_shape 0 [4; 1] heap_2x2)).
Proof.
  destruct (C10_constructor_aliases_input heap_2x2 0
              {| nd_shape := [2; 2]; nd_base := 0 |} [1; 2; 3; 4]%Z
              eq_refl eq_refl eq_refl eq_refl eq_refl) as (Hinit & Hwrite & Hshape).
  destruct (Hwrite 3 99%Z (snd (np.setitem_flat 0 3 99%Z heap_2x2)) eq_refl)
    as (_ & Hc & _ & Hmul).
  split; [exact Hinit|]. split; [exact Hc|]. split; [exact Hmul|].
  exact (Hshape [4; 1] (snd (np.set_shape 0 [4; 1] heap_2x2)) eq_refl).
Defined.

(** The caller keeps the array object it passed in, so it can also give it
    another shape in place; the instance then shows that shape. *)
Example alias_shape_write :
  let h1 := snd (np.set_shape 0 [4] heap_2x2) in
  __init__ (PyArray 0) heap_2x2 = (Ok {| mat := 0 |}, heap_2x2) /\
  shape {| mat := 0 |} h1 = (Ok [4], h1).
Proof. by split. Qed.

(* ================================================================== *)
(** ** Results depend on what the inputs hold, not on where they live *)
(* ================================================================== *)

Lemma read_view h l : fst (np.read l h) = value_of (view_at h l).
Proof.
  unfold np.read, view_at, value_of.
  destruct (arrays h !! l) as [a|]; [|done].
  by destruct (buffers h !! nd_base a).
Qed.

Lemma discover_items_denote h1 h2 items1 :
  Forall (fun v1 => forall v2, denote h1 v1 = denote h2 v2 ->
                               np.discover v1 = np.discover v2) items1 ->
  forall items2,
    map (denote h1) items1 = map (denote h2) items2 ->
    map np.discover items1 = map np.discover items2.
Proof.
  induction 1 as [|v1 items1 Hv Hall IH]; intros [|v2 items2]; simpl; try done.
  intros [= Hd Hds]. f_equal; [by apply Hv | by apply IH].
Qed.

Lemma discover_denote h1 h2 v1 :
  forall v2, denote h1 v1 = denote h2 v2 -> np.discover v1 = np.discover v2.
Proof.
  induction v1 as [ | z | s | items IH | items IH | l | m ] using pyval_nested_ind;
    intros [ | z2 | s2 | items2 | items2 | l2 | m2 ]; simpl; try done.
  - by intros [= ->].
  - intros [= H]. by rewrite (discover_items_denote h1 h2 items IH items2 H).
  - intros [= H]. by rewrite (discover_items_denote h1 h2 items IH items2 H).
Qed.

Lemma to_operand_denote h1 h2 v1 v2 :
  denote h1 v1 = denote h2 v2 ->
  fst (np.to_operand v1 h1) = fst (np.to_operand v2 h2).
Proof.
  intros H. pose proof (discover_denote h1 h2 v1 v2 H) as Hd.
  destruct v1, v2; simpl in H; try done; cbn [np.to_operand lift fst].
  - injection H as H. by rewrite !read_view, H.
Qed.

Lemma binary_value_denote op h1 h2 x1 x2 y1 y2 :
  denote h1 x1 = denote h2 x2 -> denote h1 y1 = denote h2 y2 ->
  binary_value op x1 y1 h1 = binary_value op x2 y2 h2.
Proof.
  intros Hx Hy. unfold binary_value.
  by rewrite (to_operand_denote _ _ _ _ Hx), (to_operand_denote _ _ _ _ Hy).
Qed.

Lemma unwrap_denote h1 h2 o1 o2 :
  denote h1 o1 = denote h2 o2 ->
  denote h1 (unwrap o1) = denote h2 (unwrap o2) /\
  isinstance_Matrix2D o1 = isinstance_Matrix2D o2.
Proof.
  destruct o1, o2; simpl; try done. intros [= H]. by rewrite H.
Qed.

Lemma op_value_denote op h1 h2 s1 s2 o1 o2 :
  view_at h1 (mat s1) = view_at h2 (mat s2) ->
  denote h1 o1 = denote h2 o2 ->
  op_value op s1 o1 h1 = op_value op s2 o2 h2.
Proof.
  intros Hs Ho. destruct (unwrap_denote _ _ _ _ Ho) as [Hu Hi].
  assert (Hself : denote h1 (PyArray (mat s1)) = denote h2 (PyArray (mat s2)))
    by (simpl; by rewrite Hs).
  destruct op; simpl; try by apply binary_value_denote.
  rewrite Hi. destruct (isinstance_Matrix2D o2); [|done].
  by apply binary_value_denote.
Qed.

Lemma view_push h v :
  view_at (push h v) (length (arrays h)) = Some (np.v_shape v, Some (np.v_data v)).
Proof.
  unfold view_at. rewrite lookup_push_new. simpl.
  by rewrite list_lookup_middle.
Qed.

Lemma init_array_view h l :
  observe (__init__ (PyArray l) h) = init_view (view_at h l).
Proof.
  unfold view_at, init_view. destruct (arrays h !! l) as [a|] eqn:Hl.
  - destruct (decide (length (nd_shape a) = 1)) as [H1|H1].
    { rewrite (init_rank1 h l a Hl H1), H1. simpl. unfold view_at.
      by rewrite lookup_push_view_new. }
    destruct (decide (length (nd_shape a) = 2)) as [H2|H2].
    { rewrite (init_rank2 h l a Hl H2), H2. simpl. unfold view_at. by rewrite Hl. }
    rewrite (init_rank_other h l a Hl H1 H2). simpl.
    destruct (length (nd_shape a)) as [|[|[|n]]]; done.
  - by rewrite (init_dangling h l Hl).
Qed.

Lemma wrap_result_view h r :
  observe (wrap_result h r) = init_view (Some (np.v_shape r, Some (np.v_data r))).
Proof. unfold wrap_result. by rewrite init_array_view, view_push. Qed.

Lemma op_view op self other h :
  observe (apply_op op self other h) =
    match op_value op self other h with
    | Ok r => result_view r
    | Raise e => Raise e
    | Unmodelled => Unmodelled
    end.
Proof.
  rewrite op_run. destruct (op_value op self other h) as [r| |]; try done.
  unfold return_result, result_view.
  destruct (np.v_shape r) eqn:Hs; [done|].
  rewrite <- Hs. apply wrap_result_view.
Qed.

Lemma init_view_denote h1 h2 d1 d2 :
  denote h1 d1 = denote h2 d2 ->
  observe (__init__ d1 h1) = observe (__init__ d2 h2).
Proof.
  intros H. pose proof (discover_denote h1 h2 d1 d2 H) as Hd.
  destruct d1, d2; simpl in H; try done;
    try (by rewrite !init_other).
  - rewrite !init_list, Hd.
    destruct (np.discover (PyList items0)) as [v| |]; try done.
    change (observe (wrap_result h1 v) = observe (wrap_result h2 v)).
    by rewrite !wrap_result_view.
  - injection H as H. by rewrite !init_array_view, H.
Qed.

(** C9. Two runs on inputs that hold the same numbers give the same
    result, whatever the two stores and the addresses in them: the
    constructor on two values that show the same, and each operator on
    operands that show the same, return instances with identical shape and
    entries, or raise the same exception. *)
Theorem C9_deterministic h1 h2 :
  (forall d1 d2,
      denote h1 d1 = denote h2 d2 ->
      observe (__init__ d1 h1) = observe (__init__ d2 h2)) /\
  (forall op s1 s2 o1 o2,
      view_at h1 (mat s1) = view_at h2 (mat s2) ->
      denote h1 o1 = denote h2 o2 ->
      observe (apply_op op s1 o1 h1) = observe (apply_op op s2 o2 h2)).
Proof.
  split.
  - apply init_view_denote.
  - intros op s1 s2 o1 o2 Hs Ho.
    by rewrite !op_view, (op_value_denote op h1 h2 s1 s2 o1 o2 Hs Ho).
Qed.

Lemma C9_witness :
  observe (__init__ (PyArray 0) heap_2x2) =
    observe (__init__ (PyArray 1) heap_shifted) /\
  observe (__pow__ {| mat := 0 |} (PyInt 2) heap_2x2) =
    observe (__pow__ {| mat := 1 |} (PyInt 2) heap_shifted) /\
  observe (__matmul__ {| mat := 0 |} (PyMatrix {| mat := 0 |}) heap_2x2) =
    observe (__matmul__ {| mat := 1 |} (PyMatrix {| mat := 1 |}) heap_shifted).
Proof.
  refine (conj _ (conj _ _)).
  - exact (proj1 (C9_deterministic heap_2x2 heap_shifted)
             (PyArray 0) (PyArray 1) eq_refl).
  - exact (proj2 (C9_deterministic heap_2x2 heap_shifted) Power
             {| mat := 0 |} {| mat := 1 |} (PyInt 2) (PyInt 2) eq_refl eq_refl).
  - exact (proj2 (C9_deterministic heap_2x2 heap_shifted) MatrixMultiply
             {| mat := 0 |} {| mat := 1 |}
             (PyMatrix {| mat := 0 |}) (PyMatrix {| mat := 1 |}) eq_refl eq_refl).
Defined.

(* ================================================================== *)
(** ** From the value an operator computes to what it returns *)
(* ================================================================== *)

Lemma op_result_content op self other h r :
  op_value op self other h = Ok r -> length (np.v_shape r) = 2 ->
  result_content (apply_op op self other h) = Ok r.
Proof.
  intros Hv Hr. destruct (op_rank2_result op self other h r Hv Hr) as [-> Hc].
  exact Hc.
Qed.

Lemma op_raise op self other h e :
  op_value op self other h = Raise e ->
  apply_op op self other h = (Raise e, h).
Proof. intros Hv. by rewrite op_run, Hv. Qed.

Lemma op_rank_error op self other h r :
  op_value op self other h = Ok r ->
  3 <= length (np.v_shape r) ->
  fst (apply_op op self other h) = Raise ValueError.
Proof.
  intros Hv H3. rewrite op_run, Hv.
  rewrite return_result_array by (destruct (np.v_shape r); simpl in *; [lia|done]).
  destruct (wrap_result_cases h r) as [[H _] | [[H _] | (_ & _ & ->)]];
    [lia | lia | done].
Qed.

Lemma scalar_fun_value op f self other h :
  scalar_fun op = Some f ->
  op_value op self other h =
    binary_value (np.ufunc2 f) (PyArray (mat self)) (unwrap other) h.
Proof. destruct op; simpl; intros [= <-]; done. Qed.

(* ================================================================== *)
(** ** Broadcasting between two matrices *)
(* ================================================================== *)

Lemma bdim_Some a b n :
  np.bdim a b = Some n -> (a = n \/ a = 1) /\ (b = n \/ b = 1).
Proof.
  unfold np.bdim.
  destruct (Nat.eqb_spec a b) as [->|Hab]; [intros [= ->]; auto|].
  destruct (Nat.eqb_spec a 1) as [->|Ha]; [intros [= ->]; auto|].
  destruct (Nat.eqb_spec b 1) as [->|Hb]; [intros [= ->]; auto|done].
Qed.

Lemma bdim_None a b : a <> b -> a <> 1 -> b <> 1 -> np.bdim a b = None.
Proof.
  intros Hab Ha Hb. unfold np.bdim.
  destruct (Nat.eqb_spec a b); [done|].
  destruct (Nat.eqb_spec a 1); [done|].
  by destruct (Nat.eqb_spec b 1).
Qed.

Lemma bdim_comm a b : np.bdim a b = np.bdim b a.
Proof.
  unfold np.bdim.
  destruct (Nat.eqb_spec a b) as [->|Hab].
  - by rewrite Nat.eqb_refl.
  - destruct (Nat.eqb_spec b a) as [->|_]; [done|].
    destruct (Nat.eqb_spec a 1) as [->|Ha], (Nat.eqb_spec b 1) as [->|Hb]; done.
Qed.

Lemma lookup_repeat {A} (x : A) n i : i < n -> repeat x n !! i = Some x.
Proof.
  revert i. induction n as [|n IH]; intros i Hi; [lia|].
  destruct i as [|i]; simpl; [done|]. apply IH. lia.
Qed.

Lemma repeat_uniform {A} (l : list A) n k :
  length l = n -> Forall (fun c => length c = n) (repeat l k).
Proof. intros Hl. induction k; simpl; by constructor. Qed.

(** One axis: a row of extent [b] read at extent [n]. *)
Lemma bcast_row b n (row : list Z) :
  b = n \/ b = 1 -> length row = b ->
  length (np.bcast [b] [n] row) = n /\
  forall j, j < n -> np.bcast [b] [n] row !! j = row !! stretch b n j.
Proof.
  intros Hb Hl. unfold stretch.
  destruct (Nat.eqb_spec b n) as [->|Hne].
  - by rewrite bcast_same by (by rewrite size_singleton).
  - destruct Hb as [? | ->]; [done|].
    destruct row as [|x [|y row]]; try done.
    cbn [np.bcast]. destruct (Nat.eqb_spec 1 n) as [?|_]; [done|].
    change (repeat [x] n) with (repeat (repeat x 1) n).
    rewrite (concat_repeat_repeat x 1 n), Nat.mul_1_r.
    split; [apply repeat_length|]. intros j Hj. by rewrite lookup_repeat.
Qed.

(** Two axes: an [a x b] array read at shape [m x n]. *)
Lemma bcast_2d a b m n (d : list Z) :
  a = m \/ a = 1 -> b = n \/ b = 1 -> length d = a * b ->
  length (np.bcast [a; b] [m; n] d) = m * n /\
  forall i j, i < m -> j < n ->
    np.bcast [a; b] [m; n] d !! (i * n + j) =
      d !! (stretch a m i * b + stretch b n j).
Proof.
  intros Ha Hb Hl.
  assert (Hj : forall j, j < n -> stretch b n j < b).
  { intros j Hj. unfold stretch. destruct (Nat.eqb_spec b n); lia. }
  cbn [np.bcast]. rewrite size_singleton. unfold stretch at 1.
  destruct (Nat.eqb_spec a m) as [->|Hne].
  - assert (Hall : Forall (fun c => length c = n)
                     (map (np.bcast [b] [n]) (np.chunks b m d))).
    { apply Forall_forall. intros c [r [-> Hr]]%list_elem_of_fmap.
      apply (bcast_row b n r Hb).
      pose proof (chunks_lengths b m d Hl) as Hc.
      rewrite Forall_forall in Hc. by apply Hc. }
    split.
    + by rewrite (concat_uniform_length n), length_map, chunks_count.
    + intros i j Hi Hjn.
      rewrite (concat_uniform_lookup n _ i j
                 (np.bcast [b] [n] (take b (drop (i * b) d)))); try done.
      * assert (Hrow : length (take b (drop (i * b) d)) = b).
        { rewrite length_take, length_drop. nia. }
        rewrite (proj2 (bcast_row b n _ Hb Hrow) j Hjn).
        rewrite lookup_take_lt by auto. by rewrite lookup_drop.
      * by rewrite list_lookup_fmap, chunks_lookup.
  - destruct Ha as [? | ->]; [done|].
    assert (Hd : length d = b) by lia.
    destruct (bcast_row b n d Hb Hd) as [Hlen Hlook].
    split.
    + rewrite (concat_uniform_length n) by (by apply repeat_uniform).
      by rewrite repeat_length.
    + intros i j Hi Hjn.
      rewrite (concat_uniform_lookup n _ i j (np.bcast [b] [n] d));
        [| by apply repeat_uniform | by apply lookup_repeat | done].
      by rewrite Hlook.
Qed.

Lemma broadcast_shapes_2d ra ca rb cb :
  np.broadcast_shapes [ra; ca] [rb; cb] =
    match np.bdim ra rb, np.bdim ca cb with
    | Some m, Some n => Some [m; n]
    | _, _ => None
    end.
Proof.
  unfold np.broadcast_shapes, np.pad. simpl.
  destruct (np.bdim ra rb); [|done]. by destruct (np.bdim ca cb).
Qed.

(** The element-wise ufunc on two matrices whose shapes broadcast. *)
Lemma ufunc2_2d f ra ca rb cb m n da db :
  np.bdim ra rb = Some m -> np.bdim ca cb = Some n ->
  length da = ra * ca -> length db = rb * cb ->
  exists d,
    np.ufunc2 f (matrix ra ca da) (matrix rb cb db) = Ok (matrix m n d) /\
    length d = m * n /\
    forall i j, i < m -> j < n ->
      d !! (i * n + j) =
        Some (f (entry ca da (stretch ra m i) (stretch ca n j))
                (entry cb db (stretch rb m i) (stretch cb n j))).
Proof.
  intros Hr Hc Hla Hlb.
  destruct (bdim_Some _ _ _ Hr) as [Hra Hrb], (bdim_Some _ _ _ Hc) as [Hca Hcb].
  destruct (bcast_2d ra ca m n da Hra Hca Hla) as [Hal Hae].
  destruct (bcast_2d rb cb m n db Hrb Hcb Hlb) as [Hbl Hbe].
  unfold np.ufunc2, np.broadcast_to; cbn [np.v_shape np.v_data matrix].
  rewrite broadcast_shapes_2d, Hr, Hc. cbn [length].
  change (np.pad 2 [ra; ca]) with [ra; ca].
  change (np.pad 2 [rb; cb]) with [rb; cb].
  eexists. split; [reflexivity|]. split.
  - rewrite length_zip_with. lia.
  - intros i j Hi Hj. rewrite lookup_zip_with, Hae, Hbe by done.
    assert (Hsa : stretch ra m i * ca + stretch ca n j < length da).
    { unfold stretch. rewrite Hla. clear -Hra Hca Hi Hj.
      destruct (Nat.eqb_spec ra m), (Nat.eqb_spec ca n), Hra, Hca; subst;
        try done; nia. }
    assert (Hsb : stretch rb m i * cb + stretch cb n j < length db).
    { unfold stretch. rewrite Hlb. clear -Hrb Hcb Hi Hj.
      destruct (Nat.eqb_spec rb m), (Nat.eqb_spec cb n), Hrb, Hcb; subst;
        try done; nia. }
    destruct (lookup_lt_is_Some_2 _ _ Hsa) as [x Hx].
    destruct (lookup_lt_is_Some_2 _ _ Hsb) as [y Hy].
    rewrite Hx, Hy. simpl. unfold entry.
    by rewrite (nth_lookup_Some _ _ _ _ Hx), (nth_lookup_Some _ _ _ _ Hy).
Qed.

Lemma stretches_bdim a b m : stretches a b m -> np.bdim a b = Some m.
Proof.
  intros (Ha & Hb & Hm). unfold np.bdim.
  destruct (Nat.eqb_spec a b) as [->|Hab]; [f_equal; lia|].
  destruct (Nat.eqb_spec a 1) as [->|Ha1]; [f_equal; lia|].
  destruct (Nat.eqb_spec b 1) as [->|Hb1]; [f_equal; lia|]. lia.
Qed.

(** X1. Element-wise operators between two matrices follow NumPy's
    broadcasting: when on each axis the two extents are equal or one of
    them is 1, [A + B], [A - B] and [A * B] have the larger shape and
    entry [(i, j)] combines the entries of [A] and [B] at [(i, j)], an
    operand of extent 1 along an axis being read at index 0 there. *)
Theorem elementwise_broadcast op f h A B ra ca rb cb m n da db :
  scalar_fun op = Some f ->
  content h A = Ok (matrix ra ca da) -> content h B = Ok (matrix rb cb db) ->
  length da = ra * ca -> length db = rb * cb ->
  stretches ra rb m -> stretches ca cb n ->
  exists d,
    result_content (apply_op op A (PyMatrix B) h) = Ok (matrix m n d) /\
    length d = m * n /\
    forall i j, i < m -> j < n ->
      d !! (i * n + j) =
        Some (f (entry ca da (stretch ra m i) (stretch ca n j))
                (entry cb db (stretch rb m i) (stretch cb n j))).
Proof.
  intros Hf HA HB Hla Hlb Hr%stretches_bdim Hc%stretches_bdim.
  destruct (ufunc2_2d f ra ca rb cb m n da db Hr Hc Hla Hlb) as (d & Hu & Hd).
  exists d. split; [|exact Hd].
  apply op_result_content; [|done].
  rewrite (scalar_fun_value op f _ _ _ Hf). cbn [unwrap].
  by rewrite (binary_value_matrices _ _ _ _ _ _ HA HB).
Qed.

Lemma elementwise_broadcast_witness :
  exists d,
    result_content (__add__ demo_A (PyMatrix demo_B) demo_heap) = Ok (matrix 2 2 d) /\
    d !! 3 = Some 10%Z.
Proof.
  destruct (elementwise_broadcast Add np.add64 demo_heap demo_A demo_B
              2 2 1 2 2 2 [1; 2; 3; 4]%Z [5; 6]%Z
              eq_refl eq_refl eq_refl eq_refl eq_refl
              ltac:(unfold stretches; auto) ltac:(unfold stretches; auto))
    as (d & Hr & _ & He).
  exists d. split; [exact Hr|]. exact (He 1 1 ltac:(lia) ltac:(lia)).
Defined.

(** X2. Shapes that do not broadcast (on some axis the extents differ and
    neither is 1) make [A + B], [A - B] and [A * B] raise NumPy's
    [ValueError]; nothing is allocated, the store stays as it was. *)
Theorem elementwise_shape_mismatch op f h A B ra ca rb cb da db :
  scalar_fun op = Some f ->
  content h A = Ok (matrix ra ca da) -> content h B = Ok (matrix rb cb db) ->
  (ra <> rb /\ ra <> 1 /\ rb <> 1) \/ (ca <> cb /\ ca <> 1 /\ cb <> 1) ->
  apply_op op A (PyMatrix B) h = (Raise ValueError, h).
Proof.
  intros Hf HA HB Hne. apply op_raise.
  rewrite (scalar_fun_value op f _ _ _ Hf). cbn [unwrap].
  rewrite (binary_value_matrices _ _ _ _ _ _ HA HB).
  unfold np.ufunc2, matrix; cbn [np.v_shape]. rewrite broadcast_shapes_2d.
  destruct Hne as [(H1 & H2 & H3) | (H1 & H2 & H3)].
  - by rewrite (bdim_None _ _ H1 H2 H3).
  - rewrite (bdim_None ca cb H1 H2 H3). by destruct (np.bdim ra rb).
Qed.

Lemma elementwise_shape_mismatch_witness :
  __mul__ {| mat := 0 |} (PyMatrix {| mat := 1 |}) heap_2x2_2x3 =
    (Raise ValueError, heap_2x2_2x3).
Proof.
  apply (elementwise_shape_mismatch Multiply np.mul64 heap_2x2_2x3
           {| mat := 0 |} {| mat := 1 |} 2 2 2 3
           [1; 2; 3; 4]%Z [1; 0; 2; 0; 1; 3]%Z eq_refl eq_refl eq_refl).
  right. lia.
Defined.

(* ================================================================== *)
(** ** A scalar operand; powers *)
(* ================================================================== *)

Lemma zip_with_repeat (f : Z -> Z -> Z) (d : list Z) z n :
  length d <= n -> zip_with f d (repeat z n) = map (fun x => f x z) d.
Proof.
  revert n. induction d as [|x d IH]; intros [|n]; simpl; try done; [lia|].
  intros Hl. f_equal. apply IH. lia.
Qed.

Lemma broadcast_scalar_data s z :
  np.broadcast_to (scalar z) s = repeat z (np.size s).
Proof.
  unfold np.broadcast_to, np.pad. simpl.
  by rewrite Nat.sub_0_r, app_nil_r, bcast_scalar.
Qed.

Lemma broadcast_same_data s d :
  length d = np.size s ->
  np.broadcast_to {| np.v_shape := s; np.v_data := d |} s = d.
Proof. intros Hl. unfold np.broadcast_to. simpl. by rewrite pad_same, bcast_same. Qed.

Lemma ufunc2_scalar f s d z :
  length d = np.size s ->
  np.ufunc2 f {| np.v_shape := s; np.v_data := d |} (scalar z) =
    Ok {| np.v_shape := s; np.v_data := map (fun x => f x z) d |}.
Proof.
  intros Hl. unfold np.ufunc2. cbn [np.v_shape scalar].
  rewrite broadcast_shapes_scalar, broadcast_scalar_data, broadcast_same_data by done.
  by rewrite zip_with_repeat by lia.
Qed.

Lemma size_matrix r c : np.size [r; c] = r * c.
Proof. unfold np.size. simpl. lia. Qed.

(** X3. With a Python int [z] as second operand, [A + z], [A - z] and
    [A * z] keep the shape of [A] and combine every entry with [z]. *)
Theorem elementwise_scalar op f h A r c da z :
  scalar_fun op = Some f ->
  content h A = Ok (matrix r c da) -> length da = r * c ->
  np.in_int64 z = true ->
  result_content (apply_op op A (PyInt z) h) =
    Ok (matrix r c (map (fun x => f x z) da)).
Proof.
  intros Hf HA Hl Hz. apply op_result_content; [|done].
  rewrite (scalar_fun_value op f _ _ _ Hf). cbn [unwrap].
  rewrite (binary_value_scalar _ _ _ _ _ HA Hz).
  apply ufunc2_scalar. by rewrite size_matrix.
Qed.

Lemma elementwise_scalar_witness :
  result_content (__sub__ {| mat := 0 |} (PyInt 10) heap_2x2) =
    Ok (matrix 2 2 [-9; -8; -7; -6]%Z).
Proof.
  exact (elementwise_scalar Subtract np.sub64 heap_2x2 {| mat := 0 |} 2 2
           [1; 2; 3; 4]%Z 10 eq_refl eq_refl eq_refl eq_refl).
Defined.

Lemma forallb_repeat (p : Z -> bool) z n :
  forallb p (repeat z n) = (n =? 0) || p z.
Proof.
  induction n as [|n IH]; [done|]. simpl. rewrite IH.
  destruct (p z), (n =? 0); done.
Qed.

Lemma power_value_scalar s d e :
  length d = np.size s ->
  np.power_value {| np.v_shape := s; np.v_data := d |} (scalar e) =
    if (np.size s =? 0) || (0 <=? e)%Z
    then Ok {| np.v_shape := s; np.v_data := map (fun x => np.pow64 x e) d |}
    else Raise ValueError.
Proof.
  intros Hl. unfold np.power_value. cbn [np.v_shape scalar].
  rewrite broadcast_shapes_scalar, broadcast_scalar_data, broadcast_same_data by done.
  rewrite forallb_repeat. destruct (_ || _); [|done].
  by rewrite zip_with_repeat by lia.
Qed.

Lemma power_op_value h A r c da e :
  content h A = Ok (matrix r c da) -> length da = r * c ->
  np.in_int64 e = true ->
  op_value Power A (PyInt e) h =
    if (r * c =? 0) || (0 <=? e)%Z
    then Ok (matrix r c (map (fun x => np.pow64 x e) da))
    else Raise ValueError.
Proof.
  intros HA Hl He. simpl. rewrite (binary_value_scalar _ _ _ _ _ HA He).
  unfold matrix. by rewrite power_value_scalar, size_matrix by (by rewrite size_matrix).
Qed.

Lemma power_nonneg h A r c da e :
  content h A = Ok (matrix r c da) -> length da = r * c ->
  np.in_int64 e = true -> (0 <= e)%Z ->
  result_content (__pow__ A (PyInt e) h) =
    Ok (matrix r c (map (fun x => np.pow64 x e) da)).
Proof.
  intros HA Hl He Hpos. apply (op_result_content Power); [|done].
  rewrite (power_op_value h A r c da e HA Hl He).
  destruct (Z.leb_spec 0 e); [|lia]. by rewrite orb_true_r.
Qed.

(** X4. [A ** e] for a Python int [e >= 0] keeps the shape of [A] and
    raises every entry to the power [e] in int64; for [e < 0] and a matrix
    with at least one entry it raises NumPy's [ValueError] and leaves the
    store as it was. *)
Theorem power_scalar h A r c da e :
  content h A = Ok (matrix r c da) -> length da = r * c ->
  np.in_int64 e = true ->
  ((0 <= e)%Z ->
     result_content (__pow__ A (PyInt e) h) =
       Ok (matrix r c (map (fun x => np.pow64 x e) da))) /\
  ((e < 0)%Z -> r * c <> 0 ->
     __pow__ A (PyInt e) h = (Raise ValueError, h)).
Proof.
  intros HA Hl He. split.
  - by apply power_nonneg.
  - intros Hneg Hne. apply (op_raise Power).
    rewrite (power_op_value h A r c da e HA Hl He).
    destruct (Nat.eqb_spec (r * c) 0); [done|].
    by destruct (Z.leb_spec 0 e); [lia|].
Qed.

Lemma power_scalar_witness :
  result_content (__pow__ {| mat := 0 |} (PyInt 3) heap_2x2) =
    Ok (matrix 2 2 [1; 8; 27; 64]%Z) /\
  __pow__ {| mat := 0 |} (PyInt (-1)) heap_2x2 = (Raise ValueError, heap_2x2).
Proof.
  destruct (power_scalar heap_2x2 {| mat := 0 |} 2 2 [1; 2; 3; 4]%Z 3
              eq_refl eq_refl eq_refl) as [Hpos _].
  destruct (power_scalar heap_2x2 {| mat := 0 |} 2 2 [1; 2; 3; 4]%Z (-1)
              eq_refl eq_refl eq_refl) as [_ Hneg].
  split; [exact (Hpos ltac:(lia)) | exact (Hneg ltac:(lia) ltac:(lia))].
Defined.

Lemma int64_wrap_mul_l x y : np.int64_wrap (np.int64_wrap x * y) = np.int64_wrap (x * y).
Proof.
  apply int64_wrap_congr.
  by rewrite <- Zmult_mod_idemp_l, int64_wrap_mod, Zmult_mod_idemp_l.
Qed.

Lemma result_content_observe x :
  result_content x =
    match observe x with
    | Ok c => value_of c
    | Raise e => Raise e
    | Unmodelled => Unmodelled
    end.
Proof.
  destruct x as [[m| |] h]; simpl; try done.
  unfold content. apply read_view.
Qed.

(** What an operator returns is settled by the array it computes. *)
Lemma result_content_op_value op1 s1 o1 op2 s2 o2 h1 h2 :
  op_value op1 s1 o1 h1 = op_value op2 s2 o2 h2 ->
  result_content (apply_op op1 s1 o1 h1) = result_content (apply_op op2 s2 o2 h2).
Proof. intros H. by rewrite !result_content_observe, !op_view, H. Qed.

Lemma map_pow_mul (da : list Z) :
  map (fun x => np.pow64 x 2) da = zip_with np.mul64 da da.
Proof.
  induction da as [|x da IH]; simpl; [done|]. rewrite IH. f_equal.
  unfold np.pow64, np.mul64. f_equal. lia.
Qed.

(** X5. Small exponents: [A ** 0] is all ones, [A ** 1] holds the entries
    of [A], and [A ** 2] holds what [A * A] holds, the entry-wise square. *)
Theorem power_small_exponents h A r c da :
  content h A = Ok (matrix r c da) -> length da = r * c ->
  forallb np.in_int64 da = true ->
  result_content (__pow__ A (PyInt 0) h) = Ok (matrix r c (repeat 1%Z (r * c))) /\
  result_content (__pow__ A (PyInt 1) h) = Ok (matrix r c da) /\
  result_content (__pow__ A (PyInt 2) h) =
    result_content (__mul__ A (PyMatrix A) h).
Proof.
  intros HA Hl Hda.
  rewrite (power_nonneg h A r c da 0 HA Hl eq_refl) by lia.
  rewrite (power_nonneg h A r c da 1 HA Hl eq_refl) by lia.
  rewrite (power_nonneg h A r c da 2 HA Hl eq_refl) by lia.
  repeat split.
  - f_equal. f_equal. rewrite <- Hl. clear.
    induction da as [|x da IH]; simpl; [done|]. by rewrite IH.
  - f_equal. f_equal. clear -Hda. induction da as [|x da IH]; simpl in *; [done|].
    apply andb_prop in Hda as [Hx Hda]. rewrite IH by done. f_equal.
    unfold np.pow64. rewrite Z.pow_1_r. by apply int64_wrap_id.
  - symmetry. apply (op_result_content Multiply); [|done].
    simpl. rewrite (binary_value_matrices _ _ _ _ _ _ HA HA).
    unfold matrix. rewrite ufunc2_same_shape by (by rewrite size_matrix).
    by rewrite map_pow_mul.
Qed.

Lemma power_small_exponents_witness :
  result_content (__pow__ {| mat := 0 |} (PyInt 0) heap_2x2) =
    Ok (matrix 2 2 [1; 1; 1; 1]%Z) /\
  result_content (__pow__ {| mat := 0 |} (PyInt 1) heap_2x2) =
    Ok (matrix 2 2 [1; 2; 3; 4]%Z) /\
  result_content (__pow__ {| mat := 0 |} (PyInt 2) heap_2x2) =
    result_content (__mul__ {| mat := 0 |} (PyMatrix {| mat := 0 |}) heap_2x2).
Proof.
  exact (power_small_exponents heap_2x2 {| mat := 0 |} 2 2 [1; 2; 3; 4]%Z
           eq_refl eq_refl eq_refl).
Defined.

(* ================================================================== *)
(** ** Commutativity; undoing an addition or a subtraction *)
(* ================================================================== *)

Lemma bshape_comm s1 s2 : np.bshape s1 s2 = np.bshape s2 s1.
Proof.
  revert s2. induction s1 as [|a s1 IH]; intros [|b s2]; simpl; try done.
  by rewrite bdim_comm, IH.
Qed.

Lemma broadcast_shapes_comm s1 s2 :
  np.broadcast_shapes s1 s2 = np.broadcast_shapes s2 s1.
Proof. unfold np.broadcast_shapes. by rewrite Nat.max_comm, bshape_comm. Qed.

Lemma zip_with_comm (f : Z -> Z -> Z) (xs ys : list Z) :
  (forall x y, f x y = f y x) -> zip_with f xs ys = zip_with f ys xs.
Proof.
  intros Hf. revert ys. induction xs as [|x xs IH]; intros [|y ys]; simpl; try done.
  by rewrite Hf, IH.
Qed.

Lemma ufunc2_comm f a b :
  (forall x y, f x y = f y x) -> np.ufunc2 f a b = np.ufunc2 f b a.
Proof.
  intros Hf. unfold np.ufunc2. rewrite broadcast_shapes_comm.
  destruct (np.broadcast_shapes _ _); [|done].
  by rewrite (zip_with_comm f _ _ Hf).
Qed.

Lemma value_of_raise c e : value_of c = Raise e -> False.
Proof. by destruct c as [[? [?|]]|]. Qed.

Lemma binary_value_comm f A B h :
  (forall x y, f x y = f y x) ->
  binary_value (np.ufunc2 f) (PyArray (mat A)) (PyArray (mat B)) h =
  binary_value (np.ufunc2 f) (PyArray (mat B)) (PyArray (mat A)) h.
Proof.
  intros Hf. unfold binary_value. cbn [np.to_operand].
  rewrite !read_view.
  destruct (value_of (view_at h (mat A))) as [va| |] eqn:Ha,
           (value_of (view_at h (mat B))) as [vb| |] eqn:Hb;
    try done;
    try (by apply value_of_raise in Ha); try (by apply value_of_raise in Hb).
  by apply ufunc2_comm.
Qed.

(** X6. Addition and element-wise multiplication commute: [A + B] and
    [B + A] end alike, with the same shape and entries or with the same
    exception, whatever the two shapes; so do [A * B] and [B * A]. *)
Theorem add_multiply_commute h A B :
  result_content (__add__ A (PyMatrix B) h) =
    result_content (__add__ B (PyMatrix A) h) /\
  result_content (__mul__ A (PyMatrix B) h) =
    result_content (__mul__ B (PyMatrix A) h).
Proof.
  split.
  - apply (result_content_op_value Add A (PyMatrix B) Add B (PyMatrix A)).
    simpl. apply binary_value_comm. intros x y. unfold np.add64. f_equal. lia.
  - apply (result_content_op_value Multiply A (PyMatrix B) Multiply B (PyMatrix A)).
    simpl. apply binary_value_comm. intros x y. unfold np.mul64. f_equal. lia.
Qed.

Lemma add64_sub64 x y : np.in_int64 x = true -> np.add64 (np.sub64 x y) y = x.
Proof.
  intros Hx. unfold np.sub64, np.add64.
  rewrite int64_wrap_add_l. replace (x - y + y)%Z with x by lia.
  by apply int64_wrap_id.
Qed.

Lemma zip_with_add_sub (da db : list Z) :
  length da = length db -> forallb np.in_int64 da = true ->
  zip_with np.add64 (zip_with np.sub64 da db) db = da.
Proof.
  revert db. induction da as [|x da IH]; intros [|y db]; simpl; try done.
  intros [= Hl] [Hx Hda]%andb_prop. by rewrite add64_sub64, IH.
Qed.

(** An operand that broadcasts to the shape of the first one. *)
Lemma ufunc2_onto f r c rb cb da db :
  rb = r \/ rb = 1 -> cb = c \/ cb = 1 ->
  length da = r * c -> length db = rb * cb ->
  np.ufunc2 f (matrix r c da) (matrix rb cb db) =
    Ok (matrix r c (zip_with f da (np.bcast [rb; cb] [r; c] db))) /\
  length (np.bcast [rb; cb] [r; c] db) = r * c.
Proof.
  intros Hr Hc Hla Hlb.
  destruct (bcast_2d rb cb r c db Hr Hc Hlb) as [Hlen _]. split; [|done].
  unfold np.ufunc2, matrix. cbn [np.v_shape].
  rewrite broadcast_shapes_2d.
  rewrite (stretches_bdim r rb r), (stretches_bdim c cb c)
    by (unfold stretches; auto).
  rewrite broadcast_same_data by (by rewrite size_matrix).
  done.
Qed.

(** X7. Subtraction undoes addition and addition undoes subtraction, also
    when the second operand is broadcast (a single row, a single column or
    a 1 x 1 matrix against [A]): for int64 entries [(A + B) - B] and
    [(A - B) + B] hold exactly what [A] holds. *)
Theorem add_subtract_undo h A B r c rb cb da db :
  content h A = Ok (matrix r c da) -> content h B = Ok (matrix rb cb db) ->
  length da = r * c -> length db = rb * cb ->
  rb = r \/ rb = 1 -> cb = c \/ cb = 1 ->
  forallb np.in_int64 da = true ->
  (exists S h1, __add__ A (PyMatrix B) h = (Ok S, h1) /\
     result_content (__sub__ S (PyMatrix B) h1) = Ok (matrix r c da)) /\
  (exists D h1, __sub__ A (PyMatrix B) h = (Ok D, h1) /\
     result_content (__add__ D (PyMatrix B) h1) = Ok (matrix r c da)).
Proof.
  intros HA HB Hla Hlb Hr Hc Hda.
  set (bb := np.bcast [rb; cb] [r; c] db).
  assert (Hlen : length bb = r * c) by (by apply bcast_2d).
  assert (Hstep : forall op1 f op2 g,
            scalar_fun op1 = Some f -> scalar_fun op2 = Some g ->
            zip_with g (zip_with f da bb) bb = da ->
            exists S h1, apply_op op1 A (PyMatrix B) h = (Ok S, h1) /\
              result_content (apply_op op2 S (PyMatrix B) h1) = Ok (matrix r c da)).
  { intros op1 f op2 g Hf Hg Hundo.
    destruct (ufunc2_onto f r c rb cb da db Hr Hc Hla Hlb) as [Hu Hbb].
    fold bb in Hu, Hbb.
    destruct (op_rank2_result op1 A (PyMatrix B) h
                (matrix r c (zip_with f da bb))) as [Hrun Hcs]; [|done|].
    { rewrite (scalar_fun_value op1 f _ _ _ Hf). cbn [unwrap].
      by rewrite (binary_value_matrices _ _ _ _ _ _ HA HB). }
    eexists _, _. split; [exact Hrun|].
    apply op_result_content; [|done].
    rewrite (scalar_fun_value op2 g _ _ _ Hg). cbn [unwrap].
    rewrite (binary_value_matrices _ _ _ _ _ _ Hcs
               (grows_content _ _ _ _ (grows_push _ _) HB)).
    destruct (ufunc2_onto g r c rb cb (zip_with f da bb) db Hr Hc) as [Hu2 _].
    { rewrite length_zip_with. fold bb. lia. }
    { done. }
    fold bb in Hu2. by rewrite Hu2, Hundo. }
  split.
  - apply (Hstep Add np.add64 Subtract np.sub64); [done | done |].
    apply zip_with_sub_add; [lia | done].
  - apply (Hstep Subtract np.sub64 Add np.add64); [done | done |].
    apply zip_with_add_sub; [lia | done].
Qed.

Lemma add_subtract_undo_witness :
  (exists S h1, __add__ demo_A (PyMatrix demo_B) demo_heap = (Ok S, h1) /\
     result_content (__sub__ S (PyMatrix demo_B) h1) =
       Ok (matrix 2 2 [1; 2; 3; 4]%Z)) /\
  (exists D h1, __sub__ demo_A (PyMatrix demo_B) demo_heap = (Ok D, h1) /\
     result_content (__add__ D (PyMatrix demo_B) h1) =
       Ok (matrix 2 2 [1; 2; 3; 4]%Z)).
Proof.
  apply (add_subtract_undo demo_heap demo_A demo_B 2 2 1 2
           [1; 2; 3; 4]%Z [5; 6]%Z eq_refl eq_refl eq_refl eq_refl);
    [by right | by left | reflexivity].
Defined.

(* ================================================================== *)
(** ** Errors that NumPy raises inside an operator *)
(* ================================================================== *)

(** X8. [A @ B] for an [m x k] and a [k' x n] matrix with [k <> k'] raises
    NumPy's [ValueError]; nothing is allocated. *)
Theorem matmul_inner_dimensions_differ h A B m k k' n da db :
  content h A = Ok (matrix m k da) -> content h B = Ok (matrix k' n db) ->
  k <> k' ->
  __matmul__ A (PyMatrix B) h = (Raise ValueError, h).
Proof.
  intros HA HB Hne. apply (op_raise MatrixMultiply). simpl.
  rewrite (binary_value_matrices _ _ _ _ _ _ HA HB).
  unfold np.matmul_value. simpl. by destruct (Nat.eqb_spec k k').
Qed.

Lemma matmul_inner_dimensions_differ_witness :
  __matmul__ {| mat := 1 |} (PyMatrix {| mat := 0 |}) heap_2x2_2x3 =
    (Raise ValueError, heap_2x2_2x3).
Proof.
  apply (matmul_inner_dimensions_differ heap_2x2_2x3 {| mat := 1 |} {| mat := 0 |}
           2 3 2 2 [1; 0; 2; 0; 1; 3]%Z [1; 2; 3; 4]%Z eq_refl eq_refl).
  lia.
Defined.

Lemma bshape_length s1 s2 s :
  np.bshape s1 s2 = Some s -> length s = length s1.
Proof.
  revert s2 s. induction s1 as [|a s1 IH]; intros [|b s2] s; simpl; try done.
  - by intros [= <-].
  - destruct (np.bdim a b); [|done].
    destruct (np.bshape s1 s2) as [t|] eqn:Ht; [|done].
    intros [= <-]. simpl. f_equal. by eapply IH.
Qed.

Lemma pad_length n s : length (np.pad n s) = Nat.max n (length s).
Proof. unfold np.pad. rewrite length_app, repeat_length. lia. Qed.

Lemma broadcast_shapes_length s1 s2 s :
  np.broadcast_shapes s1 s2 = Some s ->
  length s = Nat.max (length s1) (length s2).
Proof.
  unfold np.broadcast_shapes. intros H%bshape_length.
  rewrite H, pad_length. lia.
Qed.

(** X9. An operand of rank 3 or more never gives a matrix: with a raw
    array of such rank as second operand, [+], [-], [*] and [**] raise a
    [ValueError], from NumPy when the shapes do not broadcast and from the
    rank check of the constructor when they do. *)
Theorem operand_of_higher_rank op h A va l vb :
  op <> MatrixMultiply ->
  content h A = Ok va -> fst (np.read l h) = Ok vb ->
  3 <= length (np.v_shape vb) ->
  fst (apply_op op A (PyArray l) h) = Raise ValueError.
Proof.
  intros Hop HA Hl Hrank.
  assert (Hu : forall f,
            (exists e, np.ufunc2 f va vb = Raise e /\ e = ValueError) \/
            (exists r, np.ufunc2 f va vb = Ok r /\ 3 <= length (np.v_shape r))).
  { intros f. unfold np.ufunc2.
    destruct (np.broadcast_shapes _ _) as [s|] eqn:Hs; [right | left; eauto].
    eexists. split; [done|]. simpl.
    apply broadcast_shapes_length in Hs. lia. }
  assert (Hp : (exists e, np.power_value va vb = Raise e /\ e = ValueError) \/
               (exists r, np.power_value va vb = Ok r /\ 3 <= length (np.v_shape r))).
  { unfold np.power_value.
    destruct (np.broadcast_shapes _ _) as [s|] eqn:Hs; [|left; eauto].
    destruct (forallb _ _); [right | left; eauto].
    eexists. split; [done|]. simpl.
    apply broadcast_shapes_length in Hs. lia. }
  assert (Hv : exists g, op_value op A (PyArray l) h = g va vb /\
                 ((exists e, g va vb = Raise e /\ e = ValueError) \/
                  (exists r, g va vb = Ok r /\ 3 <= length (np.v_shape r)))).
  { assert (Hb : forall g, binary_value g (PyArray (mat A)) (PyArray l) h = g va vb).
    { intros g. unfold binary_value. cbn [np.to_operand].
      by rewrite read_content, HA, Hl. }
    destruct op; try done; eexists; (split; [apply Hb|]); auto. }
  destruct Hv as (g & Hv & [(e & He & ->) | (r & Hr & Hlen)]).
  - by rewrite (op_raise op A (PyArray l) h ValueError) by congruence.
  - apply (op_rank_error op A (PyArray l) h r); [congruence | lia].
Qed.

Lemma operand_of_higher_rank_witness :
  fst (__add__ {| mat := 0 |} (PyArray 1) heap_rank3) = Raise ValueError.
Proof.
  apply (operand_of_higher_rank Add heap_rank3 {| mat := 0 |}
           (matrix 2 2 [1; 2; 3; 4]%Z) 1
           {| np.v_shape := [2; 1; 2]; np.v_data := [10; 20; 30; 40]%Z |});
    [discriminate | reflexivity | reflexivity | simpl; lia].
Defined.

(* ================================================================== *)
(** ** A list of numbers as second operand *)
(* ================================================================== *)

Lemma ufunc2_vector f r c da xs :
  np.ufunc2 f (matrix r c da) (vector xs) =
  np.ufunc2 f (matrix r c da) (matrix 1 (length xs) xs).
Proof.
  unfold np.ufunc2, matrix, vector. cbn [np.v_shape].
  change (np.broadcast_shapes [r; c] [length xs])
    with (np.broadcast_shapes [r; c] [1; length xs]).
  destruct (np.broadcast_shapes _ _) as [s|] eqn:Hs; [|done].
  apply broadcast_shapes_length in Hs. simpl in Hs.
  by destruct s as [|m [|n [|k s]]].
Qed.

(** X10. A Python list of [c] numbers as second operand acts as one row
    added to (subtracted from, multiplied into) every row of an [r x c]
    matrix: entry [(i, j)] of the result combines [A[i, j]] with the
    [j]-th number of the list. *)
Theorem elementwise_list_operand op f h A r c da xs :
  scalar_fun op = Some f ->
  content h A = Ok (matrix r c da) -> length da = r * c ->
  length xs = c -> forallb np.in_int64 xs = true ->
  exists d,
    result_content (apply_op op A (int_list xs) h) = Ok (matrix r c d) /\
    length d = r * c /\
    forall i j, i < r -> j < c ->
      d !! (i * c + j) = Some (f (entry c da i j) (nth j xs 0%Z)).
Proof.
  intros Hf HA Hla Hxs Hok.
  destruct (ufunc2_2d f r c 1 c r c da xs) as (d & Hu & Hlen & Hent);
    [by apply bdim_one | by apply bdim_same | done | lia |].
  exists d. split; [|split; [done|]].
  - apply op_result_content; [|done].
    rewrite (scalar_fun_value op f _ _ _ Hf). unfold int_list. cbn [unwrap].
    unfold binary_value. cbn [np.to_operand]. rewrite read_content, HA.
    fold (int_list xs). unfold lift. cbn [fst].
    rewrite (discover_int_list xs Hok), ufunc2_vector, Hxs. exact Hu.
  - intros i j Hi Hj. rewrite (Hent i j Hi Hj). f_equal.
    unfold entry, stretch. rewrite !Nat.eqb_refl. f_equal.
    destruct (Nat.eqb_spec 1 r); f_equal; lia.
Qed.

Lemma elementwise_list_operand_witness :
  exists d,
    result_content (__mul__ {| mat := 0 |} (int_list [10; 100]%Z) heap_2x2) =
      Ok (matrix 2 2 d) /\
    d !! 3 = Some 400%Z.
Proof.
  destruct (elementwise_list_operand Multiply np.mul64 heap_2x2 {| mat := 0 |}
              2 2 [1; 2; 3; 4]%Z [10; 100]%Z
              eq_refl eq_refl eq_refl eq_refl eq_refl) as (d & Hr & _ & He).
  exists d. split; [exact Hr|]. exact (He 1 1 ltac:(lia) ltac:(lia)).
Defined.

(* ================================================================== *)
(** ** What the constructor shares with its input *)
(* ================================================================== *)

(** X11. Given an existing rank-1 array of [n] entries, the constructor
    keeps a view: a new array object of shape [(1, n)] over the caller's
    buffer.  The caller's array keeps its own shape, the instance holds
    the same entries as one row, and a later in-place write of an entry by
    the caller shows through the instance. *)
Theorem constructor_views_rank1_array h l a n d :
  arrays h !! l = Some a -> nd_shape a = [n] ->
  buffers h !! nd_base a = Some d ->
  exists m h',
    __init__ (PyArray l) h = (Ok m, h') /\
    mat m <> l /\
    arrays h' !! l = Some a /\
    content h' m = Ok (matrix 1 n d) /\
    aliases h' m {| mat := l |} /\
    forall i v h2,
      np.setitem_flat l i v h' = (Ok tt, h2) ->
      content h2 m = Ok (matrix 1 n (<[i := v]> d)).
Proof.
  intros Ha Hs Hb.
  set (m := {| mat := length (arrays h) |}).
  set (h' := push_view h [1; np.size (nd_shape a)] (nd_base a)).
  assert (Hl' : arrays h' !! l = Some a) by (by apply lookup_app_l_Some).
  assert (Hm : arrays h' !! mat m =
               Some {| nd_shape := [1; n]; nd_base := nd_base a |}).
  { unfold h', m. cbn [mat]. rewrite lookup_push_view_new, Hs.
    by rewrite size_singleton. }
  exists m, h'. split; [apply (init_rank1 h l a Ha); by rewrite Hs|].
  split; [apply lookup_lt_Some in Ha; simpl; lia|].
  split; [done|]. split; [|split].
  - apply content_lookup. eexists. split; [exact Hm|]. by split.
  - right. exists {| nd_shape := [1; n]; nd_base := nd_base a |}, a.
    split; [exact Hm|]. split; [exact Hl'|done].
  - intros i v h2 Hset.
    destruct (setitem_flat_ok h' l a d i v h2 Hl' Hb Hset) as (_ & _ & Harr & Hbuf).
    apply content_lookup. eexists. rewrite Harr. split; [exact Hm|]. by split.
Qed.

Lemma constructor_views_rank1_array_witness :
  exists m h',
    __init__ (PyArray 0) heap_vector = (Ok m, h') /\
    mat m <> 0 /\
    content h' m = Ok (matrix 1 3 [7; 8; 9]%Z) /\
    content (snd (np.setitem_flat 0 1 50%Z h')) m = Ok (matrix 1 3 [7; 50; 9]%Z).
Proof.
  destruct (constructor_views_rank1_array heap_vector 0
              {| nd_shape := [3]; nd_base := 0 |} 3 [7; 8; 9]%Z
              eq_refl eq_refl eq_refl)
    as (m & h' & Hrun & Hne & Hl & Hc & _ & Hw).
  exists m, h'. split; [exact Hrun|]. split; [exact Hne|]. split; [exact Hc|].
  apply (Hw 1 50%Z).
  injection Hrun as <- <-. reflexivity.
Defined.

(** X12. Given a list, the constructor holds a copy: the array object and
    the buffer of the instance are new, no matrix that existed aliases it,
    and a later in-place write to any array that existed before leaves
    the entries of the instance as they are. *)
Theorem constructor_copies_list h items m h' :
  __init__ (PyList items) h = (Ok m, h') ->
  grows h h' /\ fresh_in h h' m /\
  (forall m0 v0, content h m0 = Ok v0 -> ~ aliases h' m m0) /\
  (forall l v0 i v h2,
      content h {| mat := l |} = Ok v0 ->
      np.setitem_flat l i v h' = (Ok tt, h2) ->
      content h2 m = content h' m).
Proof.
  intros Hrun. pose proof (init_grows (PyList items) h) as Hg.
  rewrite Hrun in Hg. simpl in Hg.
  assert (Hf : fresh_in h h' m).
  { rewrite init_list in Hrun.
    destruct (np.discover (PyList items)) as [r| |]; try done.
    by apply (wrap_result_ok h r). }
  split; [done|]. split; [done|]. split.
  - intros m0 v0. by apply fresh_not_aliased.
  - intros l v0 i v h2 (a0 & Ha0 & Hb0 & _)%content_lookup Hset.
    cbn [mat] in Ha0.
    pose proof (grows_arrays _ _ _ _ Hg Ha0) as Ha0'.
    pose proof (grows_buffers _ _ _ _ Hg Hb0) as Hb0'.
    destruct (setitem_flat_ok h' l a0 _ i v h2 Ha0' Hb0' Hset)
      as (_ & _ & Harr & _).
    destruct Hf as (am & Ham & _ & Hbase).
    apply lookup_lt_Some in Hb0.
    unfold content, np.read. rewrite Harr, Ham. simpl.
    assert (Hbuf : buffers h2 !! nd_base am = buffers h' !! nd_base am).
    { revert Hset. unfold np.setitem_flat. rewrite Ha0', Hb0'.
      destruct (np.in_int64 v); simpl; [|done].
      destruct (length (np.v_data v0) <=? i); [done|].
      intros [= <-]. simpl. apply list_lookup_insert_ne. lia. }
    rewrite Hbuf. by destruct (buffers h' !! nd_base am).
Qed.

Lemma constructor_copies_list_witness :
  fresh_in heap_2x2 (snd (__init__ (int_list [5; 6]%Z) heap_2x2)) {| mat := 2 |} /\
  content (snd (np.setitem_flat 0 0 9%Z (snd (__init__ (int_list [5; 6]%Z) heap_2x2))))
          {| mat := 2 |} =
    content (snd (__init__ (int_list [5; 6]%Z) heap_2x2)) {| mat := 2 |}.
Proof.
  destruct (constructor_copies_list heap_2x2 [PyInt 5; PyInt 6] {| mat := 2 |}
              (snd (__init__ (int_list [5; 6]%Z) heap_2x2)) eq_refl)
    as (_ & Hf & _ & Hw).
  split; [exact Hf|].
  exact (Hw 0 (matrix 2 2 [1; 2; 3; 4]%Z) 0 9%Z _ eq_refl eq_refl).
Defined.

(* ================================================================== *)
(** ** [shape], [__str__] and [__repr__] on what the class produces *)
(* ================================================================== *)

Lemma wrap_result_content h r m h' :
  wrap_result h r = (Ok m, h') ->
  exists rows cols, content h' m = Ok (matrix rows cols (np.v_data r)).
Proof.
  destruct (wrap_result_cases h r) as [[H2 ->] | [[H1 ->] | (_ & _ & ->)]];
    [| |done]; intros [= <- <-].
  - destruct r as [[|rows [|cols [|k s]]] d]; try done.
    exists rows, cols. apply content_push.
  - exists 1, (np.size (np.v_shape r)). apply content_lookup.
    eexists. split.
    + simpl. apply list_lookup_middle. rewrite length_app. simpl. lia.
    + split; [|done]. simpl. by apply list_lookup_middle.
Qed.

Lemma read_of_content h m v : content h m = Ok v -> np.read (mat m) h = (Ok v, h).
Proof.
  intros Hc. pose proof (read_state (mat m) h) as Hs.
  unfold content in Hc. destruct (np.read (mat m) h) as [o h0].
  simpl in *. by subst.
Qed.

(** X13. On an instance that an operator returned, or that the constructor
    built from a list, the three observers succeed and leave the store as
    it is: [shape()] answers a pair [(rows, cols)], [__str__] answers the
    rendering of the [rows x cols] array the instance holds and
    [__repr__] that array's repr inside [Matrix2D(...)]. *)
Theorem observers_on_results h m h' :
  (exists op self other, apply_op op self other h = (Ok m, h')) \/
  (exists items, __init__ (PyList items) h = (Ok m, h')) ->
  exists rows cols d,
    content h' m = Ok (matrix rows cols d) /\
    shape m h' = (Ok [rows; cols], h') /\
    (forall array_str,
        __str__ array_str m h' = (Ok (array_str (matrix rows cols d)), h')) /\
    (forall array_repr,
        __repr__ array_repr m h' =
          (Ok ("Matrix2D(" +:+ array_repr (matrix rows cols d) +:+ ")"), h')).
Proof.
  intros Hmade.
  assert (Hc : exists rows cols d, content h' m = Ok (matrix rows cols d)).
  { destruct Hmade as [(op & self & other & Hrun) | (items & Hrun)].
    - rewrite op_run in Hrun.
      destruct (op_value op self other h) as [r| |]; try done.
      apply return_result_ok in Hrun.
      destruct (wrap_result_content h r m h' Hrun) as (rows & cols & Hc). eauto.
    - rewrite init_list in Hrun.
      destruct (np.discover (PyList items)) as [r| |]; try done.
      destruct (wrap_result_content h r m h' Hrun) as (rows & cols & Hc). eauto. }
  destruct Hc as (rows & cols & d & Hc). exists rows, cols, d.
  split; [done|]. pose proof (read_of_content h' m _ Hc) as Hrd. split; [|split].
  - apply content_lookup in Hc as (a & Ha & _ & Hs).
    rewrite (shape_lookup h' m a Ha). simpl in Hs. by rewrite <- Hs.
  - intros array_str. unfold __str__, bind. by rewrite Hrd.
  - intros array_repr. unfold __repr__, bind. by rewrite Hrd.
Qed.

Lemma observers_on_results_witness :
  exists rows cols d,
    content (snd (__add__ demo_A (PyMatrix demo_B) demo_heap)) {| mat := 3 |} =
      Ok (matrix rows cols d) /\
    shape {| mat := 3 |} (snd (__add__ demo_A (PyMatrix demo_B) demo_heap)) =
      (Ok [rows; cols], snd (__add__ demo_A (PyMatrix demo_B) demo_heap)).
Proof.
  destruct (observers_on_results demo_heap {| mat := 3 |}
              (snd (__add__ demo_A (PyMatrix demo_B) demo_heap))
              (or_introl (ex_intro _ Add (ex_intro _ demo_A
                 (ex_intro _ (PyMatrix demo_B) eq_refl)))))
    as (rows & cols & d & Hc & Hs & _).
  by exists rows, cols, d.
Defined.

(* ================================================================== *)
(** ** The matrix product composes *)
(* ================================================================== *)

Lemma sum_upto_add k f g :
  (sum_upto k f + sum_upto k g)%Z = sum_upto k (fun l => f l + g l)%Z.
Proof.
  revert f g. induction k as [|k IH]; intros f g; [done|].
  rewrite !sum_upto_S, <- IH. lia.
Qed.

Lemma sum_upto_mul_r k f c :
  (sum_upto k f * c)%Z = sum_upto k (fun l => f l * c)%Z.
Proof.
  revert f. induction k as [|k IH]; intros f; [unfold sum_upto; simpl; lia|].
  rewrite !sum_upto_S, <- IH. lia.
Qed.

Lemma sum_upto_mul_l k f c :
  (c * sum_upto k f)%Z = sum_upto k (fun l => c * f l)%Z.
Proof.
  revert f. induction k as [|k IH]; intros f; [unfold sum_upto; simpl; lia|].
  rewrite !sum_upto_S, <- IH. lia.
Qed.

Lemma sum_upto_zero k : sum_upto k (fun _ => 0%Z) = 0%Z.
Proof. induction k as [|k IH]; [done|]. by rewrite sum_upto_S, IH. Qed.

Lemma sum_upto_swap n k (F : nat -> nat -> Z) :
  sum_upto n (fun l => sum_upto k (fun p => F l p)) =
  sum_upto k (fun p => sum_upto n (fun l => F l p)).
Proof.
  induction n as [|n IH] in F |- *.
  - change (0%Z = sum_upto k (fun _ => 0%Z)). by rewrite sum_upto_zero.
  - rewrite sum_upto_S, IH, sum_upto_add. apply sum_upto_ext.
    intros p _. by rewrite sum_upto_S.
Qed.

Lemma sum_upto_mod k f g :
  (forall l, l < k -> (f l mod 2 ^ 64 = g l mod 2 ^ 64)%Z) ->
  (sum_upto k f mod 2 ^ 64 = sum_upto k g mod 2 ^ 64)%Z.
Proof.
  revert f g. induction k as [|k IH]; intros f g H; [done|].
  rewrite !sum_upto_S.
  rewrite (Zplus_mod (f 0%nat)), (Zplus_mod (g 0%nat)).
  rewrite (H 0%nat) by lia.
  rewrite (IH (fun l => f (S l)) (fun l => g (S l))); [done|].
  intros l Hl. apply H. lia.
Qed.

Lemma mul_wrap_mod_l x c :
  ((np.int64_wrap x * c) mod 2 ^ 64 = (x * c) mod 2 ^ 64)%Z.
Proof. by rewrite <- Zmult_mod_idemp_l, int64_wrap_mod, Zmult_mod_idemp_l. Qed.

Lemma mul_wrap_mod_r x c :
  ((c * np.int64_wrap x) mod 2 ^ 64 = (c * x) mod 2 ^ 64)%Z.
Proof. by rewrite <- Zmult_mod_idemp_r, int64_wrap_mod, Zmult_mod_idemp_r. Qed.

(** Two row-major arrays with the same entries are the same list. *)
Lemma entries_ext m n (d1 d2 : list Z) :
  length d1 = m * n -> length d2 = m * n ->
  (forall i j, i < m -> j < n -> d1 !! (i * n + j) = d2 !! (i * n + j)) ->
  d1 = d2.
Proof.
  intros H1 H2 Hent. apply list_eq. intros p.
  destruct (Nat.lt_ge_cases p (m * n)) as [Hp|Hp].
  - assert (Hn : n <> 0) by nia.
    rewrite (Nat.div_mod_eq p n), (Nat.mul_comm n).
    apply Hent.
    + apply Nat.Div0.div_lt_upper_bound. lia.
    + by apply Nat.mod_upper_bound.
  - by rewrite !lookup_ge_None_2 by lia.
Qed.

Lemma entry_of_lookup n (d : list Z) i j x :
  d !! (i * n + j) = Some x -> entry n d i j = x.
Proof. intros H. unfold entry. by apply nth_lookup_Some. Qed.

(** The product as a value, with its entries. *)
Lemma matmul_value_entries m k n da db :
  length da = m * k ->
  exists d,
    np.matmul_value (matrix m k da) (matrix k n db) = Ok (matrix m n d) /\
    length d = m * n /\
    forall i j, i < m -> j < n -> entry n d i j = product_entry k n da db i j.
Proof.
  intros Hda. destruct (matmul_entries m k n da db Hda) as (d & Hv & Hl & He).
  exists d. split; [exact Hv|]. split; [exact Hl|].
  intros i j Hi Hj. by apply entry_of_lookup, He.
Qed.

Lemma product_entry_assoc m k n q da db dc dab dbc i j :
  i < m -> j < q ->
  (forall i l, i < m -> l < n -> entry n dab i l = product_entry k n da db i l) ->
  (forall p j, p < k -> j < q -> entry q dbc p j = product_entry n q db dc p j) ->
  product_entry n q dab dc i j = product_entry k q da dbc i j.
Proof.
  intros Hi Hj Hab Hbc. unfold product_entry at 1 2.
  apply int64_wrap_congr.
  rewrite (sum_upto_mod n _
             (fun l => sum_upto k (fun p => entry k da i p * entry n db p l
                                            * entry q dc l j))%Z).
  2:{ intros l Hl. rewrite (Hab i l Hi Hl). unfold product_entry.
      by rewrite mul_wrap_mod_l, sum_upto_mul_r. }
  rewrite (sum_upto_mod k (fun p => entry k da i p * entry q dbc p j)%Z
             (fun p => sum_upto n (fun l => entry k da i p * entry n db p l
                                            * entry q dc l j))%Z).
  2:{ intros p Hp. rewrite (Hbc p j Hp Hj). unfold product_entry.
      rewrite mul_wrap_mod_r, sum_upto_mul_l. f_equal.
      apply sum_upto_ext. intros l _. lia. }
  by rewrite sum_upto_swap.
Qed.

Lemma op_matmul_run h A B va vb r :
  content h A = Ok va -> content h B = Ok vb ->
  np.matmul_value va vb = Ok r -> length (np.v_shape r) = 2 ->
  __matmul__ A (PyMatrix B) h = (Ok {| mat := length (arrays h) |}, push h r) /\
  content (push h r) {| mat := length (arrays h) |} = Ok r.
Proof.
  intros HA HB Hv Hr.
  apply (op_rank2_result MatrixMultiply A (PyMatrix B) h r); [|done].
  simpl. by rewrite (binary_value_matrices _ _ _ _ _ _ HA HB).
Qed.

(** X14. The matrix product is associative, wrap-around included: for an
    [m x k], a [k x n] and an [n x q] matrix with int64 entries,
    [(A @ B) @ C] and [A @ (B @ C)] hold the same [m x q] matrix. *)
Theorem matmul_associative h A B C m k n q da db dc :
  content h A = Ok (matrix m k da) -> content h B = Ok (matrix k n db) ->
  content h C = Ok (matrix n q dc) ->
  length da = m * k -> length db = k * n ->
  exists AB h1 BC h2 d,
    __matmul__ A (PyMatrix B) h = (Ok AB, h1) /\
    __matmul__ B (PyMatrix C) h = (Ok BC, h2) /\
    result_content (__matmul__ AB (PyMatrix C) h1) = Ok (matrix m q d) /\
    result_content (__matmul__ A (PyMatrix BC) h2) = Ok (matrix m q d).
Proof.
  intros HA HB HC Hda Hdb.
  destruct (matmul_value_entries m k n da db Hda) as (dab & Vab & Lab & Eab).
  destruct (matmul_value_entries k n q db dc Hdb) as (dbc & Vbc & Lbc & Ebc).
  destruct (matmul_value_entries m n q dab dc Lab) as (d1 & V1 & L1 & E1).
  destruct (matmul_value_entries m k q da dbc Hda) as (d2 & V2 & L2 & E2).
  assert (Heq : d1 = d2).
  { apply (entries_ext m q); [done | done |]. intros i j Hi Hj.
    pose proof (E1 i j Hi Hj) as H1. pose proof (E2 i j Hi Hj) as H2.
    assert (Hlt : i * q + j < m * q) by nia.
    destruct (lookup_lt_is_Some_2 d1 (i * q + j)) as [x1 Hx1]; [lia|].
    destruct (lookup_lt_is_Some_2 d2 (i * q + j)) as [x2 Hx2]; [lia|].
    rewrite Hx1, Hx2. f_equal.
    rewrite <- (entry_of_lookup q d1 i j x1 Hx1), <- (entry_of_lookup q d2 i j x2 Hx2).
    rewrite H1, H2. by apply (product_entry_assoc m k n q da db dc dab dbc). }
  subst d2.
  destruct (op_matmul_run h A B _ _ _ HA HB Vab eq_refl) as [Rab Cab].
  destruct (op_matmul_run h B C _ _ _ HB HC Vbc eq_refl) as [Rbc Cbc].
  eexists _, _, _, _, d1. split; [exact Rab|]. split; [exact Rbc|]. split.
  - apply (op_result_content MatrixMultiply); [|done]. simpl.
    by rewrite (binary_value_matrices _ _ _ _ _ _ Cab
                  (grows_content _ _ _ _ (grows_push _ _) HC)).
  - apply (op_result_content MatrixMultiply); [|done]. simpl.
    by rewrite (binary_value_matrices _ _ _ _ _ _
                  (grows_content _ _ _ _ (grows_push _ _) HA) Cbc).
Qed.

Lemma matmul_associative_witness :
  exists AB h1 BC h2,
    __matmul__ {| mat := 0 |} (PyMatrix {| mat := 1 |}) heap_chain = (Ok AB, h1) /\
    __matmul__ {| mat := 1 |} (PyMatrix {| mat := 2 |}) heap_chain = (Ok BC, h2) /\
    result_content (__matmul__ AB (PyMatrix {| mat := 2 |}) h1) =
      result_content (__matmul__ {| mat := 0 |} (PyMatrix BC) h2).
Proof.
  destruct (matmul_associative heap_chain {| mat := 0 |} {| mat := 1 |} {| mat := 2 |}
              2 2 3 1 [1; 2; 3; 4]%Z [1; 0; 2; 0; 1; 3]%Z [5; 6; 7]%Z
              eq_refl eq_refl eq_refl eq_refl eq_refl)
    as (AB & h1 & BC & h2 & d & Rab & Rbc & H1 & H2).
  exists AB, h1, BC, h2. split; [exact Rab|]. split; [exact Rbc|].
  by rewrite H1, H2.
Defined.

Lemma product_entry_add k n da db dc ds i j :
  (forall l, l < k ->
     entry n ds l j = np.add64 (entry n db l j) (entry n dc l j)) ->
  product_entry k n da ds i j =
    np.add64 (product_entry k n da db i j) (product_entry k n da dc i j).
Proof.
  intros Hs. unfold product_entry, np.add64.
  rewrite int64_wrap_add_l, int64_wrap_add_r, sum_upto_add.
  apply int64_wrap_congr, sum_upto_mod. intros l Hl.
  rewrite (Hs l Hl). unfold np.add64. rewrite mul_wrap_mod_r. f_equal. lia.
Qed.

Lemma entry_zip_with f n (d1 d2 : list Z) i j :
  i * n + j < length d1 -> i * n + j < length d2 ->
  entry n (zip_with f d1 d2) i j = f (entry n d1 i j) (entry n d2 i j).
Proof.
  intros H1 H2.
  destruct (lookup_lt_is_Some_2 d1 _ H1) as [x Hx].
  destruct (lookup_lt_is_Some_2 d2 _ H2) as [y Hy].
  rewrite (entry_of_lookup n d1 i j x Hx), (entry_of_lookup n d2 i j y Hy).
  apply entry_of_lookup. by rewrite lookup_zip_with, Hx, Hy.
Qed.

Lemma entries_ext_entry m n (d1 d2 : list Z) :
  length d1 = m * n -> length d2 = m * n ->
  (forall i j, i < m -> j < n -> entry n d1 i j = entry n d2 i j) ->
  d1 = d2.
Proof.
  intros H1 H2 Hent. apply (entries_ext m n); [done | done |].
  intros i j Hi Hj. assert (Hlt : i * n + j < m * n) by nia.
  destruct (lookup_lt_is_Some_2 d1 (i * n + j)) as [x1 Hx1]; [lia|].
  destruct (lookup_lt_is_Some_2 d2 (i * n + j)) as [x2 Hx2]; [lia|].
  rewrite Hx1, Hx2. f_equal.
  rewrite <- (entry_of_lookup n d1 i j x1 Hx1), <- (entry_of_lookup n d2 i j x2 Hx2).
  by apply Hent.
Qed.

(** X15. The matrix product distributes over addition, wrap-around
    included: for an [m x k] matrix [A] and two [k x n] matrices [B] and
    [C] with int64 entries, [A @ (B + C)] and [(A @ B) + (A @ C)] hold the
    same [m x n] matrix. *)
Theorem matmul_distributes_over_add h A B C m k n da db dc :
  content h A = Ok (matrix m k da) -> content h B = Ok (matrix k n db) ->
  content h C = Ok (matrix k n dc) ->
  length da = m * k -> length db = k * n -> length dc = k * n ->
  exists S h1 AB h2 AC h3 d,
    __add__ B (PyMatrix C) h = (Ok S, h1) /\
    __matmul__ A (PyMatrix B) h = (Ok AB, h2) /\
    __matmul__ A (PyMatrix C) h2 = (Ok AC, h3) /\
    result_content (__matmul__ A (PyMatrix S) h1) = Ok (matrix m n d) /\
    result_content (__add__ AB (PyMatrix AC) h3) = Ok (matrix m n d).
Proof.
  intros HA HB HC Hda Hdb Hdc.
  set (ds := zip_with np.add64 db dc).
  destruct (matmul_value_entries m k n da db Hda) as (dab & Vab & Lab & Eab).
  destruct (matmul_value_entries m k n da dc Hda) as (dac & Vac & Lac & Eac).
  destruct (matmul_value_entries m k n da ds Hda) as (d & Vs & Ls & Es).
  assert (Heq : zip_with np.add64 dab dac = d).
  { apply (entries_ext_entry m n); [rewrite length_zip_with; lia | done |].
    intros i j Hi Hj. rewrite entry_zip_with by nia.
    rewrite (Eab i j Hi Hj), (Eac i j Hi Hj), (Es i j Hi Hj).
    symmetry. apply product_entry_add. intros l Hl.
    apply entry_zip_with; nia. }
  (* B + C *)
  destruct (op_rank2_result Add B (PyMatrix C) h (matrix k n ds)) as [Rs Cs];
    [|done|].
  { simpl. rewrite (binary_value_matrices _ _ _ _ _ _ HB HC).
    unfold matrix. by rewrite ufunc2_same_shape by (by rewrite size_matrix). }
  (* A @ B, then A @ C *)
  destruct (op_matmul_run h A B _ _ _ HA HB Vab eq_refl) as [Rab Cab].
  set (h2 := push h (matrix m n dab)) in *.
  pose proof (grows_push h (matrix m n dab)) as G2. fold h2 in G2.
  destruct (op_matmul_run h2 A C _ _ _
              (grows_content _ _ _ _ G2 HA) (grows_content _ _ _ _ G2 HC)
              Vac eq_refl) as [Rac Cac].
  eexists _, _, _, _, _, _, d.
  split; [exact Rs|]. split; [exact Rab|]. split; [exact Rac|]. split.
  - apply (op_result_content MatrixMultiply); [|done]. simpl.
    by rewrite (binary_value_matrices _ _ _ _ _ _
                  (grows_content _ _ _ _ (grows_push _ _) HA) Cs).
  - apply (op_result_content Add); [|done]. simpl.
    rewrite (binary_value_matrices _ _ _ _ _ _
               (grows_content _ _ _ _ (grows_push _ _) Cab) Cac).
    unfold matrix. rewrite ufunc2_same_shape by (by rewrite size_matrix).
    by rewrite Heq.
Qed.

Lemma matmul_distributes_over_add_witness :
  exists S h1 AB h2 AC h3,
    __add__ {| mat := 1 |} (PyMatrix {| mat := 2 |}) heap_distr = (Ok S, h1) /\
    __matmul__ {| mat := 0 |} (PyMatrix {| mat := 1 |}) heap_distr = (Ok AB, h2) /\
    __matmul__ {| mat := 0 |} (PyMatrix {| mat := 2 |}) h2 = (Ok AC, h3) /\
    result_content (__matmul__ {| mat := 0 |} (PyMatrix S) h1) =
      result_content (__add__ AB (PyMatrix AC) h3).
Proof.
  destruct (matmul_distributes_over_add heap_distr
              {| mat := 0 |} {| mat := 1 |} {| mat := 2 |} 2 2 3
              [1; 2; 3; 4]%Z [1; 0; 2; 0; 1; 3]%Z [5; 6; 7; 8; 9; 10]%Z
              eq_refl eq_refl eq_refl eq_refl eq_refl eq_refl)
    as (S & h1 & AB & h2 & AC & h3 & d & Rs & Rab & Rac & H1 & H2).
  exists S, h1, AB, h2, AC, h3.
  split; [exact Rs|]. split; [exact Rab|]. split; [exact Rac|]. by rewrite H1, H2.
Defined.

(* ================================================================== *)
(** ** What the constructor holds; the demo from any store *)
(* ================================================================== *)

Lemma bind_ok {A B} (c : Py A) (k : A -> Py B) h a h' :
  c h = (Ok a, h') -> bind c k h = k a h'.
Proof. intros H. unfold bind. by rewrite H. Qed.

Lemma init_list_run h items v :
  np.discover (PyList items) = Ok v ->
  __init__ (PyList items) h = wrap_result h v.
Proof. intros Hd. by rewrite init_list, Hd. Qed.

Lemma wrap_result_matrix h r c d :
  wrap_result h (matrix r c d) = (Ok {| mat := length (arrays h) |}, push h (matrix r c d)).
Proof.
  destruct (wrap_result_cases h (matrix r c d)) as [[_ ->] | [[H _] | (_ & H & _)]];
    done.
Qed.

Lemma wrap_result_vector h xs :
  wrap_result h (vector xs) =
    (Ok {| mat := S (length (arrays h)) |},
     push_view (push h (vector xs)) [1; length xs] (length (buffers h))) /\
  content (push_view (push h (vector xs)) [1; length xs] (length (buffers h)))
          {| mat := S (length (arrays h)) |} = Ok (matrix 1 (length xs) xs).
Proof.
  destruct (wrap_result_cases h (vector xs)) as [[H _] | [[_ ->] | (H & _)]];
    [done | | done].
  cbn [vector np.v_shape]. rewrite size_singleton. split; [done|].
  apply content_lookup. eexists. split.
  - simpl. apply list_lookup_middle. rewrite length_app. simpl. lia.
  - split; [|done]. simpl. by apply list_lookup_middle.
Qed.

(** X17. The constructor holds the numbers it was given, in row-major
    order: a list of [N] int64 numbers becomes the [1 x N] matrix of these
    numbers, a non-empty list of rows of equal length [cols] the matrix
    with these rows. *)
Theorem constructor_holds_the_numbers :
  (forall h xs,
      forallb np.in_int64 xs = true ->
      result_content (__init__ (int_list xs) h) = Ok (matrix 1 (length xs) xs)) /\
  (forall h xss cols,
      xss <> [] -> rows_ok cols xss = true ->
      result_content (__init__ (int_rows xss) h) =
        Ok (matrix (length xss) cols (concat xss))).
Proof.
  split.
  - intros h xs Hxs. unfold int_list.
    rewrite (init_list_run h _ _ (discover_int_list xs Hxs)).
    destruct (wrap_result_vector h xs) as [-> Hc]. exact Hc.
  - intros h xss cols Hne Hok. unfold int_rows.
    rewrite (init_list_run h _ _ (discover_int_rows cols xss Hok Hne)).
    fold (matrix (length xss) cols (concat xss)).
    rewrite wrap_result_matrix. apply content_push.
Qed.

Lemma constructor_holds_the_numbers_witness :
  result_content (__init__ (int_list [5; 6]%Z) heap_2x2) = Ok (matrix 1 2 [5; 6]%Z) /\
  result_content (__init__ (int_rows [[1; 2; 3]; [4; 5; 6]]%Z) heap_2x2) =
    Ok (matrix 2 3 [1; 2; 3; 4; 5; 6]%Z).
Proof.
  split.
  - exact (proj1 constructor_holds_the_numbers heap_2x2 [5; 6]%Z eq_refl).
  - refine (proj2 constructor_holds_the_numbers heap_2x2
              [[1; 2; 3]; [4; 5; 6]]%Z 3 _ eq_refl). discriminate.
Defined.

Lemma content_same_arrays h h' m :
  arrays h' = arrays h -> buffers h' = buffers h -> content h' m = content h m.
Proof.
  intros Ha Hb. unfold content, np.read. rewrite Ha, Hb.
  destruct (arrays h !! mat m) as [a|]; [|done].
  by destruct (buffers h !! nd_base a).
Qed.

(** X18. From any store, whatever it already holds,
    [demo_complex_expression] returns an instance holding
    [[128, 128], [168, 168]], appends its two lines to the output, and
    leaves every matrix that existed with the entries it had. *)
Theorem demo_from_any_store (array_str : np.value -> string) h :
  exists m h',
    demo_complex_expression array_str h = (Ok m, h') /\
    content h' m = Ok (matrix 2 2 [128; 128; 168; 168]%Z) /\
    stdout h' = stdout h ++ ["Result of (A + B) @ (A - B) ** 2:";
                             array_str (matrix 2 2 [128; 128; 168; 168]%Z)] /\
    (forall m0 v, content h m0 = Ok v -> content h' m0 = Ok v).
Proof.
  (* A = Matrix2D([[1, 2], [3, 4]]) *)
  set (vA := matrix 2 2 [1; 2; 3; 4]%Z).
  set (A := {| mat := length (arrays h) |}). set (h1 := push h vA).
  assert (R1 : __init__ (PyList [PyList [PyInt 1; PyInt 2]; PyList [PyInt 3; PyInt 4]]) h
               = (Ok A, h1)).
  { rewrite (init_list_run h [PyList [PyInt 1; PyInt 2]; PyList [PyInt 3; PyInt 4]]
               vA eq_refl).
    apply wrap_result_matrix. }
  assert (G1 : grows h h1) by apply grows_push.
  assert (CA1 : content h1 A = Ok vA) by apply content_push.
  (* B = Matrix2D([5, 6]) *)
  destruct (wrap_result_vector h1 [5; 6]%Z) as [RB CB2].
  set (B := {| mat := S (length (arrays h1)) |}) in *.
  set (h2 := push_view (push h1 (vector [5; 6]%Z)) [1; 2] (length (buffers h1))) in *.
  assert (R2 : __init__ (PyList [PyInt 5; PyInt 6]) h1 = (Ok B, h2)).
  { by rewrite (init_list_run h1 [PyInt 5; PyInt 6] (vector [5; 6]%Z) eq_refl). }
  assert (G2 : grows h1 h2).
  { eapply grows_trans; [apply grows_push | apply grows_push_view]. }
  pose proof (grows_content _ _ _ _ G2 CA1) as CA2.
  (* A + B *)
  set (vs := matrix 2 2 [6; 8; 8; 10]%Z).
  destruct (op_rank2_result Add A (PyMatrix B) h2 vs) as [R3 CS3]; [|done|].
  { simpl. by rewrite (binary_value_matrices _ _ _ _ _ _ CA2 CB2). }
  set (Sm := {| mat := length (arrays h2) |}) in *. set (h3 := push h2 vs) in *.
  assert (G3 : grows h2 h3) by apply grows_push.
  (* A - B *)
  set (vd := matrix 2 2 [-4; -4; -2; -2]%Z).
  destruct (op_rank2_result Subtract A (PyMatrix B) h3 vd) as [R4 CD4]; [|done|].
  { simpl. by rewrite (binary_value_matrices _ _ _ _ _ _
                         (grows_content _ _ _ _ G3 CA2) (grows_content _ _ _ _ G3 CB2)). }
  set (D := {| mat := length (arrays h3) |}) in *. set (h4 := push h3 vd) in *.
  assert (G4 : grows h3 h4) by apply grows_push.
  (* (A - B) ** 2 *)
  set (vp := matrix 2 2 [16; 16; 4; 4]%Z).
  destruct (op_rank2_result Power D (PyInt 2) h4 vp) as [R5 CP5]; [|done|].
  { simpl. by rewrite (binary_value_scalar _ _ _ _ 2 CD4 eq_refl). }
  set (P := {| mat := length (arrays h4) |}) in *. set (h5 := push h4 vp) in *.
  assert (G5 : grows h4 h5) by apply grows_push.
  (* (A + B) @ ((A - B) ** 2) *)
  set (vr := matrix 2 2 [128; 128; 168; 168]%Z).
  destruct (op_rank2_result MatrixMultiply Sm (PyMatrix P) h5 vr) as [R6 CR6]; [|done|].
  { simpl. by rewrite (binary_value_matrices _ _ _ _ _ _
                         (grows_content _ _ _ _ G5 (grows_content _ _ _ _ G4 CS3)) CP5). }
  set (R := {| mat := length (arrays h5) |}) in *. set (h6 := push h5 vr) in *.
  assert (G6 : grows h5 h6) by apply grows_push.
  assert (G : grows h h6) by (repeat (eapply grows_trans; [eassumption|]); apply grows_refl).
  cbn [apply_op] in R3, R4, R5, R6.
  (* the two prints *)
  set (h7 := {| arrays := arrays h6; buffers := buffers h6;
                stdout := stdout h6 ++ ["Result of (A + B) @ (A - B) ** 2:"] |}).
  assert (C7 : content h7 R = Ok vr).
  { by rewrite (content_same_arrays h6 h7 R eq_refl eq_refl). }
  set (h8 := {| arrays := arrays h7; buffers := buffers h7;
                stdout := stdout h7 ++ [array_str vr] |}).
  exists R, h8. split; [|split; [|split]].
  - unfold demo_complex_expression.
    rewrite (bind_ok _ _ _ _ _ R1). cbv beta.
    rewrite (bind_ok _ _ _ _ _ R2). cbv beta.
    rewrite (bind_ok _ _ _ _ _ R3). cbv beta.
    rewrite (bind_ok _ _ _ _ _ R4). cbv beta.
    rewrite (bind_ok _ _ _ _ _ R5). cbv beta.
    rewrite (bind_ok _ _ _ _ _ R6). cbv beta.
    rewrite (bind_ok _ _ h6 tt h7 eq_refl). cbv beta.
    assert (RS : __str__ array_str R h7 = (Ok (array_str vr), h7)).
    { unfold __str__. by rewrite (bind_ok _ _ _ _ _ (read_of_content h7 R vr C7)). }
    by rewrite (bind_ok _ _ _ _ _ RS).
  - by rewrite (content_same_arrays h6 h8 R eq_refl eq_refl).
  - simpl. by rewrite <- app_assoc.
  - intros m0 v Hc. rewrite (content_same_arrays h6 h8 m0 eq_refl eq_refl).
    exact (grows_content h h6 m0 v G Hc).
Qed.
